(** * Simple MMC power sequence management (drivers/mmc/core/pwrseq_simple.c)

    A shallow embedding of the driver: the sequencer structure, the
    three lifecycle callbacks, the two sysfs attributes and the probe
    routine.  Calls into the clock, GPIO, regulator, timer and driver-core
    subsystems are recorded, in program order, in a trace of events; the
    driver's own state is the [mmc_pwrseq_simple] record. *)

From Stdlib Require Import NArith ZArith List String Ascii Bool Lia.
From Stdlib Require Import Decimal DecimalString DecimalPos DecimalZ.
Import ListNotations.

Local Open Scope Z_scope.

(* ================================================================= *)
(** ** Machine integers *)

(** [u32] arithmetic wraps modulo 2^32. *)
Definition u32 (z : Z) : Z := z mod 2 ^ 32.

(** Conversion to a 32-bit [int] (two's complement), as the casts
    [(int)min_uV] and [int nvalues = reset_gpios->ndescs] perform it. *)
Definition to_int (z : Z) : Z := (z + 2 ^ 31) mod 2 ^ 32 - 2 ^ 31.

Definition INT_MIN : Z := - 2 ^ 31.
Definition INT_MAX : Z := 2 ^ 31 - 1.
Definition U32_MAX : Z := 2 ^ 32 - 1.

(* ================================================================= *)
(** ** Error pointers *)

(** Constants of include/uapi/asm-generic/errno-base.h and errno.h. *)
Definition ENOENT : Z := 2.
Definition ENOMEM : Z := 12.
Definition EINVAL : Z := 22.
Definition ERANGE : Z := 34.
Definition ENOSYS : Z := 38.

(** A kernel pointer that is either a usable handle or [ERR_PTR(err)]
    with [err] a negative errno. *)
Inductive ptr (A : Type) : Type :=
| Handle (a : A)
| ERR_PTR (err : Z).
Arguments Handle {A} a.
Arguments ERR_PTR {A} err.

(** An error pointer encodes an errno between 1 and [MAX_ERRNO]. *)
Definition MAX_ERRNO : Z := 4095.

Definition errno_in_range {A} (p : ptr A) : Prop :=
  match p with
  | Handle _ => True
  | ERR_PTR e => - MAX_ERRNO <= e <= -1
  end.

Definition IS_ERR {A} (p : ptr A) : bool :=
  match p with
  | Handle _ => false
  | ERR_PTR _ => true
  end.

Definition PTR_ERR {A} (p : ptr A) : Z :=
  match p with
  | Handle _ => 0
  | ERR_PTR e => e
  end.

(* ================================================================= *)
(** ** Resources and the sequencer structure *)

(** Opaque objects of the collaborating subsystems. *)
Definition clk := nat.
Definition regulator := nat.
Definition gpio_desc := nat.
Definition gpio_array := nat.

(** [struct gpio_descs]: the array information, the number of
    descriptors (an [unsigned int]) and the descriptors themselves. *)
Record gpio_descs : Type := {
  info : gpio_array;
  ndescs : Z;
  desc : list gpio_desc
}.

(** [struct mmc_pwrseq_simple] (the embedded [struct mmc_pwrseq] only
    carries the registration data and is left out). *)
Record mmc_pwrseq_simple : Type := {
  clk_enabled : bool;
  post_power_on_delay_ms : Z;
  power_off_delay_us : Z;
  ext_clk : ptr clk;
  reset_gpios : ptr gpio_descs;
  vref : ptr regulator
}.

Definition set_clk_enabled (b : bool) (p : mmc_pwrseq_simple) : mmc_pwrseq_simple :=
  {| clk_enabled := b;
     post_power_on_delay_ms := post_power_on_delay_ms p;
     power_off_delay_us := power_off_delay_us p;
     ext_clk := ext_clk p;
     reset_gpios := reset_gpios p;
     vref := vref p |}.

(** The device attributes of the driver. *)
Inductive device_attribute : Type :=
| dev_attr_pwr_gpio
| dev_attr_vref_uV.

(* ================================================================= *)
(** ** Events: the calls the driver makes into other subsystems *)

Inductive event : Type :=
| Clk_prepare_enable (c : ptr clk)
| Clk_disable_unprepare (c : ptr clk)
| Gpiod_set_array_value_cansleep
    (array_size : Z) (desc_array : list gpio_desc)
    (array_info : gpio_array) (value_bitmap : list bool)
| Msleep (msecs : Z)
| Usleep_range (min max : Z)
| Regulator_get_voltage (r : ptr regulator)
| Regulator_set_voltage (r : ptr regulator) (min_uV max_uV : Z)
| Device_create_file (a : device_attribute)
| Device_remove_file (a : device_attribute)
| Mmc_pwrseq_register
| Mmc_pwrseq_unregister.

(* ================================================================= *)
(** ** The machine and its monad *)

(** What a callback can see and change: the sequencer structure, the
    outcomes of the coming [bitmap_alloc] calls ([false] is a failed
    allocation; once the list is used up every allocation succeeds),
    what uninitialised memory holds ([stale i] is bit [i] of a block
    fresh from the allocator), the value [regulator_get_voltage]
    reports, and the trace of the calls made so far, oldest first. *)
Record machine : Type := {
  pwrseq : mmc_pwrseq_simple;
  heap : list bool;
  stale : nat -> bool;
  vref_now : Z;
  trace : list event
}.

Definition M (A : Type) : Type := machine -> A * machine.

Definition ret {A} (a : A) : M A := fun m => (a, m).

Definition bind {A B} (c : M A) (k : A -> M B) : M B :=
  fun m => let (a, m') := c m in k a m'.

Declare Scope seq_scope.
Delimit Scope seq_scope with seq.
Notation "x <- c ;; k" := (bind c (fun x => k))
  (at level 61, c at next level, right associativity) : seq_scope.
Notation "c ;; k" := (bind c (fun _ => k))
  (at level 61, right associativity) : seq_scope.
Local Open Scope seq_scope.

Definition skip : M unit := ret tt.

(** Reading the structure behind the [pwrseq] pointer. *)
Definition load {A} (field : mmc_pwrseq_simple -> A) : M A :=
  fun m => (field (pwrseq m), m).

(** Writing it. *)
Definition update (f : mmc_pwrseq_simple -> mmc_pwrseq_simple) : M unit :=
  fun m => (tt, {| pwrseq := f (pwrseq m);
                   heap := heap m;
                   stale := stale m;
                   vref_now := vref_now m;
                   trace := trace m |}).

(** [pwrseq->clk_enabled = b]. *)
Definition store_clk_enabled (b : bool) : M unit := update (set_clk_enabled b).

Definition emit (e : event) : M unit :=
  fun m => (tt, {| pwrseq := pwrseq m;
                   heap := heap m;
                   stale := stale m;
                   vref_now := vref_now m;
                   trace := trace m ++ [e] |}).

(** The final machine and the events a computation adds. *)
Definition exec {A} (c : M A) (m : machine) : machine := snd (c m).
Definition result {A} (c : M A) (m : machine) : A := fst (c m).

(* ================================================================= *)
(** ** Collaborators *)

(** A bitmap of [nbits] bits, bit 0 first. *)
Definition bitmap := list bool.

(** The number of bits of a bitmap whose size is passed as the
    [unsigned int nbits]. *)
Definition bitmap_bits (nbits : Z) : nat := Z.to_nat (u32 nbits).

(** A block fresh from the allocator, seen as a bitmap of [nbits]
    bits: it is not initialised and holds whatever the memory held. *)
Definition fresh_bitmap (m : machine) (nbits : Z) : bitmap :=
  map (stale m) (seq 0 (bitmap_bits nbits)).

(** [bitmap_alloc(nbits, GFP_KERNEL)]: NULL ([None]) when the allocator
    fails, and else a bitmap that is not initialised. *)
Definition bitmap_alloc (nbits : Z) : M (option bitmap) :=
  fun m =>
    match heap m with
    | false :: rest =>
        (None, {| pwrseq := pwrseq m; heap := rest; stale := stale m;
                  vref_now := vref_now m; trace := trace m |})
    | true :: rest =>
        (Some (fresh_bitmap m nbits),
         {| pwrseq := pwrseq m; heap := rest; stale := stale m;
            vref_now := vref_now m; trace := trace m |})
    | [] => (Some (fresh_bitmap m nbits), m)
    end.

(** [bitmap_fill] and [bitmap_zero] overwrite every one of the
    [nbits] bits of [dst], whatever it held. *)
Definition bitmap_fill (dst : bitmap) (nbits : Z) : bitmap :=
  repeat true (bitmap_bits nbits).

Definition bitmap_zero (dst : bitmap) (nbits : Z) : bitmap :=
  repeat false (bitmap_bits nbits).

Definition clk_prepare_enable (c : ptr clk) : M unit :=
  emit (Clk_prepare_enable c).

Definition clk_disable_unprepare (c : ptr clk) : M unit :=
  emit (Clk_disable_unprepare c).

Definition gpiod_set_array_value_cansleep
    (array_size : Z) (desc_array : list gpio_desc)
    (array_info : gpio_array) (value_bitmap : bitmap) : M unit :=
  emit (Gpiod_set_array_value_cansleep array_size desc_array array_info
          value_bitmap).

Definition msleep (msecs : Z) : M unit := emit (Msleep msecs).

Definition usleep_range (min max : Z) : M unit := emit (Usleep_range min max).

Definition regulator_set_voltage (r : ptr regulator) (min_uV max_uV : Z) : M unit :=
  emit (Regulator_set_voltage r min_uV max_uV).

Definition regulator_get_voltage (r : ptr regulator) : M Z :=
  emit (Regulator_get_voltage r) ;;
  (fun m => (vref_now m, m)).

(* ================================================================= *)
(** ** The reset-line driver and the lifecycle callbacks *)

(** [mmc_pwrseq_simple_set_gpios_value]. *)
Definition mmc_pwrseq_simple_set_gpios_value (value : Z) : M unit :=
  reset_gpios <- load reset_gpios ;;
  match reset_gpios with
  | ERR_PTR _ => skip
  | Handle g =>
      let nvalues := to_int (ndescs g) in
      values <- bitmap_alloc nvalues ;;
      match values with
      | None => skip
      | Some values =>
          let values :=
            if negb (value =? 0) then bitmap_fill values nvalues
            else bitmap_zero values nvalues in
          gpiod_set_array_value_cansleep nvalues (desc g) (info g) values
      end
  end.

(** [mmc_pwrseq_simple_pre_power_on]. *)
Definition mmc_pwrseq_simple_pre_power_on : M unit :=
  ext_clk <- load ext_clk ;;
  clk_enabled <- load clk_enabled ;;
  (if negb (IS_ERR ext_clk) && negb clk_enabled then
     clk_prepare_enable ext_clk ;;
     store_clk_enabled true
   else skip) ;;
  mmc_pwrseq_simple_set_gpios_value 1.

(** [mmc_pwrseq_simple_post_power_on]. *)
Definition mmc_pwrseq_simple_post_power_on : M unit :=
  mmc_pwrseq_simple_set_gpios_value 0 ;;
  post_power_on_delay_ms <- load post_power_on_delay_ms ;;
  if negb (post_power_on_delay_ms =? 0) then msleep post_power_on_delay_ms
  else skip.

(** [mmc_pwrseq_simple_power_off]. *)
Definition mmc_pwrseq_simple_power_off : M unit :=
  mmc_pwrseq_simple_set_gpios_value 1 ;;
  power_off_delay_us <- load power_off_delay_us ;;
  (if negb (power_off_delay_us =? 0) then
     usleep_range power_off_delay_us (u32 (2 * power_off_delay_us))
   else skip) ;;
  ext_clk <- load ext_clk ;;
  clk_enabled <- load clk_enabled ;;
  if negb (IS_ERR ext_clk) && clk_enabled then
    clk_disable_unprepare ext_clk ;;
    store_clk_enabled false
  else skip.

(* ================================================================= *)
(** ** C strings and the kernel's string helpers *)

Local Open Scope string_scope.
Local Open Scope Z_scope.

Definition NUL : ascii := "000"%char.
Definition NL : ascii := "010"%char.

(** The C string a NUL-terminated buffer holds: the bytes before the
    first NUL.  sysfs hands a store routine the [count] bytes written,
    followed by a NUL. *)
Fixpoint c_str (buf : string) : string :=
  match buf with
  | EmptyString => EmptyString
  | String c rest => if Ascii.eqb c NUL then EmptyString else String c (c_str rest)
  end.

(** The tail test of [sysfs_streq], after its loop over the common
    prefix: both strings ended, or one ended and the other holds just a
    newline. *)
Definition streq_tail (s1 s2 : string) : bool :=
  match s1, s2 with
  | EmptyString, EmptyString => true
  | EmptyString, String c EmptyString => Ascii.eqb c NL
  | String c EmptyString, EmptyString => Ascii.eqb c NL
  | _, _ => false
  end.

(** Modelled from the spec: [sysfs_streq] (lib/string.c) is not among
    the sources.  The spec has the write accept the case-sensitive tokens;
    the helper compares two C strings byte by byte and treats a single
    trailing newline on either of them as absent. *)
Fixpoint sysfs_streq (s1 s2 : string) : bool :=
  match s1, s2 with
  | String c1 r1, String c2 r2 =>
      if Ascii.eqb c1 c2 then sysfs_streq r1 r2 else false
  | _, _ => streq_tail s1 s2
  end.

(** [isdigit] and [isspace] of the kernel's [_ctype] table. *)
Definition isdigit (c : ascii) : bool :=
  let n := nat_of_ascii c in (48 <=? n)%nat && (n <=? 57)%nat.

Definition isspace (c : ascii) : bool :=
  let n := nat_of_ascii c in
  ((9 <=? n)%nat && (n <=? 13)%nat) || (n =? 32)%nat || (n =? 160)%nat.

Definition digit_val (c : ascii) : Z := Z.of_nat (nat_of_ascii c) - 48.

Fixpoint skip_spaces (s : string) : string :=
  match s with
  | String c rest => if isspace c then skip_spaces rest else s
  | EmptyString => s
  end.

(** [_parse_integer] in base 10: the value of the leading decimal
    digits, accumulated from [acc], how many there are, and what follows
    them.  The value is kept exact here; the callers below apply the
    64-bit overflow rule or the 64-bit wrap-around of the C code. *)
Fixpoint parse_integer (s : string) (acc : Z) (n : nat) : Z * nat * string :=
  match s with
  | String c rest =>
      if isdigit c then parse_integer rest (10 * acc + digit_val c) (S n)
      else (acc, n, s)
  | EmptyString => (acc, n, s)
  end.

Definition ULLONG_MAX : Z := 2 ^ 64 - 1.
Definition LONG_MAX : Z := 2 ^ 63 - 1.
Definition LONG_MIN : Z := - 2 ^ 63.

(** Conversion to a 64-bit [long] (two's complement). *)
Definition to_long (z : Z) : Z := (z + 2 ^ 63) mod 2 ^ 64 - 2 ^ 63.

(** [_kstrtoull] in base 10: at least one digit, no overflow of 64
    bits, then an optional newline and the end of the string. *)
Definition _kstrtoull (s : string) : Z + Z :=
  let '(v, n, rest) := parse_integer s 0 0 in
  if ULLONG_MAX <? v then inr (- ERANGE)
  else if (n =? 0)%nat then inr (- EINVAL)
  else
    let rest :=
      match rest with
      | String c r => if Ascii.eqb c NL then r else rest
      | EmptyString => rest
      end in
    match rest with
    | EmptyString => inl v
    | String _ _ => inr (- EINVAL)
    end.

(** Modelled from the spec: [kstrtol] (lib/kstrtox.c) is not among the
    sources.  The spec's "a single integer" is read as the helper reads
    it in base 10, with [long] 64 bits wide: an optional sign, decimal
    digits, an optional final newline, and a value that fits a [long].
    [inl v] is success with [*res = v]; [inr e] is the error return. *)
Definition kstrtol (s : string) : Z + Z :=
  match s with
  | String c rest =>
      if Ascii.eqb c "-" then
        match _kstrtoull rest with
        | inr e => inr e
        | inl tmp => if 2 ^ 63 <? tmp then inr (- ERANGE) else inl (- tmp)
        end
      else
        match _kstrtoull (if Ascii.eqb c "+" then rest else s) with
        | inr e => inr e
        | inl tmp => if LONG_MAX <? tmp then inr (- ERANGE) else inl tmp
        end
  | EmptyString =>
      match _kstrtoull s with
      | inr e => inr e
      | inl tmp => inl tmp
      end
  end.

(** One [%ld] conversion of [vsscanf]: leading white space is skipped,
    a minus sign is accepted, at least one digit is required, and the
    value wraps to 64 bits.  [None] stops the scan. *)
Definition scan_ld (str : string) : option (Z * string) :=
  let str := skip_spaces str in
  let neg :=
    match str with
    | String c _ => Ascii.eqb c "-"
    | EmptyString => false
    end in
  let digits :=
    match str with
    | String _ rest => if neg then rest else str
    | EmptyString => str
    end in
  match digits with
  | String c _ =>
      if isdigit c then
        let '(v, _, next) := parse_integer digits 0 0 in
        Some (to_long (if neg then - (v mod 2 ^ 64) else v mod 2 ^ 64), next)
      else None
  | EmptyString => None
  end.

(** Modelled from the spec: [sscanf] (lib/vsprintf.c) is not among the
    sources.  This is the scan of the format "%ld %ld" of the spec's "two
    space-separated integers": the values converted, in order; the return
    value of [sscanf] is their number.  A conversion is not attempted at
    the end of the input, and the blank of the format skips any white
    space, also none. *)
Definition sscanf_ld_ld (buf : string) : list Z :=
  match buf with
  | EmptyString => []
  | _ =>
      match scan_ld buf with
      | None => []
      | Some (a, str) =>
          let str := skip_spaces str in
          match str with
          | EmptyString => [a]
          | _ =>
              match scan_ld str with
              | None => [a]
              | Some (b, _) => [a; b]
              end
          end
      end
  end.

(** [sysfs_emit]: the text placed in the page buffer and the number of
    bytes, which the show routine returns. *)
Definition sysfs_emit (text : string) : string * Z :=
  (text, Z.of_nat (String.length text)).

(** The conversion "%d" of an [int]. *)
Definition fmt_d (v : Z) : string := NilZero.string_of_int (Z.to_int v).

Definition newline : string := String NL EmptyString.

(* ================================================================= *)
(** ** The sysfs attributes *)

(** [pwr_gpio_show]: the page text and the return value. *)
Definition pwr_gpio_show : M (string * Z) :=
  clk_enabled <- load clk_enabled ;;
  ret (sysfs_emit ((if clk_enabled then "on" else "off") ++ newline)).

(** [pwr_gpio_store]; [buf] holds the bytes written and [count] is
    their number as sysfs passes it.  The C variable [on] is assigned in
    the first two branches only; the third returns at once. *)
Definition pwr_gpio_store (buf : string) (count : Z) : M Z :=
  let buf := c_str buf in
  let on :=
    if sysfs_streq buf "on" || sysfs_streq buf "1" then Some true
    else if sysfs_streq buf "off" || sysfs_streq buf "0" then Some false
    else None in
  match on with
  | None => ret count
  | Some on =>
      (if on then
         ext_clk <- load ext_clk ;;
         clk_enabled <- load clk_enabled ;;
         (if negb (IS_ERR ext_clk) && negb clk_enabled then
            clk_prepare_enable ext_clk ;;
            store_clk_enabled true
          else skip) ;;
         mmc_pwrseq_simple_set_gpios_value 1 ;;
         mmc_pwrseq_simple_set_gpios_value 0 ;;
         post_power_on_delay_ms <- load post_power_on_delay_ms ;;
         if negb (post_power_on_delay_ms =? 0) then
           msleep post_power_on_delay_ms
         else skip
       else
         mmc_pwrseq_simple_set_gpios_value 1 ;;
         power_off_delay_us <- load power_off_delay_us ;;
         (if negb (power_off_delay_us =? 0) then
            usleep_range power_off_delay_us (u32 (2 * power_off_delay_us))
          else skip) ;;
         ext_clk <- load ext_clk ;;
         clk_enabled <- load clk_enabled ;;
         if negb (IS_ERR ext_clk) && clk_enabled then
           clk_disable_unprepare ext_clk ;;
           store_clk_enabled false
         else skip) ;;
      ret count
  end.

(** [vref_uV_show]. *)
Definition vref_uV_show : M (string * Z) :=
  vref <- load vref ;;
  if IS_ERR vref then ret (sysfs_emit ("na" ++ newline))
  else
    uV <- regulator_get_voltage vref ;;
    ret (sysfs_emit (fmt_d uV ++ newline)).

(** [vref_uV_store]. *)
Definition vref_uV_store (buf : string) (count : Z) : M Z :=
  let buf := c_str buf in
  vref <- load vref ;;
  if IS_ERR vref then ret count
  else
    match kstrtol buf with
    | inl min_uV =>
        let max_uV := min_uV in
        regulator_set_voltage vref (to_int min_uV) (to_int max_uV) ;;
        ret count
    | inr _ =>
        match sscanf_ld_ld buf with
        | [min_uV; max_uV] =>
            regulator_set_voltage vref (to_int min_uV) (to_int max_uV) ;;
            ret count
        | _ => ret count
        end
    end.

(* ================================================================= *)
(** ** Bind and unbind *)

(** What the platform answers during probe: whether [devm_kzalloc]
    succeeds, the three resource lookups, and the two optional [u32]
    device properties. *)
Record platform_device : Type := {
  devm_kzalloc_ok : bool;
  devm_clk_get : ptr clk;
  devm_gpiod_get_array : ptr gpio_descs;
  prop_post_power_on_delay_ms : option Z;
  prop_power_off_delay_us : option Z;
  devm_regulator_get_optional : ptr regulator
}.

(** The structure [devm_kzalloc] returns: all fields zero.  A NULL
    pointer is no error pointer; the three pointers are assigned before
    anything reads them, and NULL is written here as a handle (for the
    line group, of an empty group). *)
Definition kzalloc_pwrseq : mmc_pwrseq_simple :=
  {| clk_enabled := false;
     post_power_on_delay_ms := 0;
     power_off_delay_us := 0;
     ext_clk := Handle 0%nat;
     reset_gpios := Handle {| info := 0%nat; ndescs := 0; desc := [] |};
     vref := Handle 0%nat |}.

Definition set_ext_clk (c : ptr clk) (p : mmc_pwrseq_simple) : mmc_pwrseq_simple :=
  {| clk_enabled := clk_enabled p;
     post_power_on_delay_ms := post_power_on_delay_ms p;
     power_off_delay_us := power_off_delay_us p;
     ext_clk := c;
     reset_gpios := reset_gpios p;
     vref := vref p |}.

Definition set_reset_gpios (g : ptr gpio_descs) (p : mmc_pwrseq_simple) : mmc_pwrseq_simple :=
  {| clk_enabled := clk_enabled p;
     post_power_on_delay_ms := post_power_on_delay_ms p;
     power_off_delay_us := power_off_delay_us p;
     ext_clk := ext_clk p;
     reset_gpios := g;
     vref := vref p |}.

Definition set_vref (r : ptr regulator) (p : mmc_pwrseq_simple) : mmc_pwrseq_simple :=
  {| clk_enabled := clk_enabled p;
     post_power_on_delay_ms := post_power_on_delay_ms p;
     power_off_delay_us := power_off_delay_us p;
     ext_clk := ext_clk p;
     reset_gpios := reset_gpios p;
     vref := r |}.

Definition set_post_power_on_delay_ms (d : Z) (p : mmc_pwrseq_simple) : mmc_pwrseq_simple :=
  {| clk_enabled := clk_enabled p;
     post_power_on_delay_ms := d;
     power_off_delay_us := power_off_delay_us p;
     ext_clk := ext_clk p;
     reset_gpios := reset_gpios p;
     vref := vref p |}.

Definition set_power_off_delay_us (d : Z) (p : mmc_pwrseq_simple) : mmc_pwrseq_simple :=
  {| clk_enabled := clk_enabled p;
     post_power_on_delay_ms := post_power_on_delay_ms p;
     power_off_delay_us := d;
     ext_clk := ext_clk p;
     reset_gpios := reset_gpios p;
     vref := vref p |}.

(** [device_property_read_u32]: the destination is written only when
    the property is there. *)
Definition device_property_read_u32 (prop : option Z)
    (set : Z -> mmc_pwrseq_simple -> mmc_pwrseq_simple) : M unit :=
  match prop with
  | Some v => update (set v)
  | None => skip
  end.

Definition device_create_file (a : device_attribute) : M unit :=
  emit (Device_create_file a).

Definition device_remove_file (a : device_attribute) : M unit :=
  emit (Device_remove_file a).

(** Modelled from the spec: [mmc_pwrseq_register] (pwrseq.c) is not
    among the sources.  The spec has bind end with registering the
    sequencer and names no way for that to fail; the call returns 0. *)
Definition mmc_pwrseq_register : M Z :=
  emit Mmc_pwrseq_register ;; ret 0.

Definition mmc_pwrseq_unregister : M unit := emit Mmc_pwrseq_unregister.

(** [mmc_pwrseq_simple_probe]; the value returned is 0 or a negative
    errno. *)
Definition mmc_pwrseq_simple_probe (pdev : platform_device) : M Z :=
  if negb (devm_kzalloc_ok pdev) then ret (- ENOMEM)
  else
    update (fun _ => kzalloc_pwrseq) ;;
    update (set_ext_clk (devm_clk_get pdev)) ;;
    ext_clk <- load ext_clk ;;
    if IS_ERR ext_clk && negb (PTR_ERR ext_clk =? - ENOENT) then
      ret (PTR_ERR ext_clk)
    else
      update (set_reset_gpios (devm_gpiod_get_array pdev)) ;;
      reset_gpios <- load reset_gpios ;;
      if IS_ERR reset_gpios &&
         negb (PTR_ERR reset_gpios =? - ENOENT) &&
         negb (PTR_ERR reset_gpios =? - ENOSYS) then
        ret (PTR_ERR reset_gpios)
      else
        device_property_read_u32 (prop_post_power_on_delay_ms pdev)
          set_post_power_on_delay_ms ;;
        device_property_read_u32 (prop_power_off_delay_us pdev)
          set_power_off_delay_us ;;
        device_create_file dev_attr_pwr_gpio ;;
        update (set_vref (devm_regulator_get_optional pdev)) ;;
        vref <- load vref ;;
        (if negb (IS_ERR vref) then device_create_file dev_attr_vref_uV
         else skip) ;;
        mmc_pwrseq_register.

(** [mmc_pwrseq_simple_remove]. *)
Definition mmc_pwrseq_simple_remove : M Z :=
  mmc_pwrseq_unregister ;;
  device_remove_file dev_attr_pwr_gpio ;;
  vref <- load vref ;;
  (if negb (IS_ERR vref) then device_remove_file dev_attr_vref_uV
   else skip) ;;
  ret 0.

(** The machine probe starts from: no structure yet, nothing traced,
    and memory that holds ones and zeros in turn. *)
Definition power_up (heap : list bool) (vref_now : Z) : machine :=
  {| pwrseq := kzalloc_pwrseq; heap := heap; stale := Nat.odd;
     vref_now := vref_now; trace := [] |}.

(* ================================================================= *)
(** ** Vocabulary for texts *)

(** A token that does not end in a newline. *)
Definition newline_free_end (tok : string) : Prop :=
  forall s, tok <> s ++ newline.

(** The two tests of [pwr_gpio_store] on the C string of the buffer. *)
Definition says_on (s : string) : bool :=
  sysfs_streq s "on" || sysfs_streq s "1".

Definition says_off (s : string) : bool :=
  sysfs_streq s "off" || sysfs_streq s "0".

(** A text at which [parse_integer] stops: it is empty or starts with
    a byte that is no digit. *)
Definition no_digit_ahead (s : string) : Prop :=
  match s with
  | EmptyString => True
  | String c _ => isdigit c = false
  end.

(** The digits of a positive number, as [fmt_d] prints them. *)
Definition digits_of (p : positive) : string :=
  NilEmpty.string_of_uint (Pos.to_uint p).

(** The text that may follow the digits of a number [kstrtol]
    accepts. *)
Definition line_end (tail : string) : Prop :=
  tail = EmptyString \/ tail = newline.

(** Two printed numbers with one blank between them. *)
Definition two_numbers (a b : Z) (tail : string) : string :=
  fmt_d a ++ String " " (fmt_d b ++ tail).

(** A buffer without a NUL byte; its C string is the whole buffer. *)
Fixpoint nul_free (s : string) : bool :=
  match s with
  | EmptyString => true
  | String c r => negb (Ascii.eqb c NUL) && nul_free r
  end.

Local Close Scope string_scope.

(* ================================================================= *)
(** ** Describing runs *)

(** Whether the next [bitmap_alloc] succeeds. *)
Definition alloc_ok (h : list bool) : bool :=
  match h with
  | false :: _ => false
  | _ => true
  end.

(** What one call of the reset-line driver adds to the trace. *)
Definition reset_write (value : Z) (p : mmc_pwrseq_simple) (h : list bool)
  : list event :=
  match reset_gpios p with
  | ERR_PTR _ => []
  | Handle g =>
      if alloc_ok h then
        [Gpiod_set_array_value_cansleep (to_int (ndescs g)) (desc g) (info g)
           (repeat (negb (value =? 0)) (bitmap_bits (to_int (ndescs g))))]
      else []
  end.

(** The allocation outcomes left after one call of the driver. *)
Definition heap_after_write (p : mmc_pwrseq_simple) (h : list bool) : list bool :=
  if IS_ERR (reset_gpios p) then h else tl h.

(** The machine [m] after its structure became [p], its allocator
    outcomes [h], and the events [evs] were added. *)
Definition advance (m : machine) (p : mmc_pwrseq_simple) (h : list bool)
    (evs : list event) : machine :=
  {| pwrseq := p; heap := h; stale := stale m; vref_now := vref_now m;
     trace := trace m ++ evs |}.

(** Kinds of events, for counting and filtering. *)
Definition is_clk_enable (e : event) : bool :=
  match e with Clk_prepare_enable _ => true | _ => false end.

Definition is_clk_disable (e : event) : bool :=
  match e with Clk_disable_unprepare _ => true | _ => false end.

Definition is_sleep (e : event) : bool :=
  match e with Msleep _ | Usleep_range _ _ => true | _ => false end.

(** A group write that drives at least one line to logical 0. *)
Definition drives_low (e : event) : bool :=
  match e with
  | Gpiod_set_array_value_cansleep _ _ _ bits => existsb negb bits
  | _ => false
  end.

(** How many of the events [evs] are of kind [f]. *)
Definition calls (f : event -> bool) (evs : list event) : nat :=
  List.length (filter f evs).

(** The events a run from [m] to [m'] added. *)
Definition added (m m' : machine) : list event :=
  skipn (List.length (trace m)) (trace m').

(** A line group as the GPIO core builds it: [ndescs] counts the
    descriptors and fits an [int]. *)
Definition gpio_descs_wf (g : gpio_descs) : Prop :=
  ndescs g = Z.of_nat (List.length (desc g)) /\ ndescs g <= INT_MAX.

(** Whether pre-power-on enables the clock, and whether power-off
    disables it. *)
Definition clk_on_needed (p : mmc_pwrseq_simple) : bool :=
  negb (IS_ERR (ext_clk p)) && negb (clk_enabled p).

Definition clk_off_needed (p : mmc_pwrseq_simple) : bool :=
  negb (IS_ERR (ext_clk p)) && clk_enabled p.



(** A clock lookup the probe tolerates: a handle, or the error
    [-ENOENT]. *)
Definition clk_tolerated (c : ptr clk) : bool :=
  match c with
  | Handle _ => true
  | ERR_PTR e => e =? - ENOENT
  end.

(** A line-group lookup the probe tolerates: a handle, or one of the
    errors [-ENOENT] and [-ENOSYS]. *)
Definition gpios_tolerated (g : ptr gpio_descs) : bool :=
  match g with
  | Handle _ => true
  | ERR_PTR e => (e =? - ENOENT) || (e =? - ENOSYS)
  end.

(** The structure a probe that reaches registration has built. *)
Definition bound_pwrseq (pdev : platform_device) : mmc_pwrseq_simple :=
  {| clk_enabled := false;
     post_power_on_delay_ms :=
       match prop_post_power_on_delay_ms pdev with Some v => v | None => 0 end;
     power_off_delay_us :=
       match prop_power_off_delay_us pdev with Some v => v | None => 0 end;
     ext_clk := devm_clk_get pdev;
     reset_gpios := devm_gpiod_get_array pdev;
     vref := devm_regulator_get_optional pdev |}.

(** What can be asked of a bound sequencer: the three callbacks and
    reads and writes of the two attributes. *)
Inductive request : Type :=
| Pre_power_on
| Post_power_on
| Power_off
| Read_pwr_gpio
| Write_pwr_gpio (buf : string) (count : Z)
| Read_vref_uV
| Write_vref_uV (buf : string) (count : Z).

(** Serving one request; what a read or write returns is dropped. *)
Definition serve (r : request) : M unit :=
  match r with
  | Pre_power_on => mmc_pwrseq_simple_pre_power_on
  | Post_power_on => mmc_pwrseq_simple_post_power_on
  | Power_off => mmc_pwrseq_simple_power_off
  | Read_pwr_gpio => pwr_gpio_show ;; skip
  | Write_pwr_gpio buf count => pwr_gpio_store buf count ;; skip
  | Read_vref_uV => vref_uV_show ;; skip
  | Write_vref_uV buf count => vref_uV_store buf count ;; skip
  end.

(** Serving requests one after the other. *)
Fixpoint serve_all (rs : list request) (m : machine) : machine :=
  match rs with
  | [] => m
  | r :: rs => serve_all rs (exec (serve r) m)
  end.

(** No clock handle, and the flag clear. *)
Definition clk_never_on (p : mmc_pwrseq_simple) : Prop :=
  IS_ERR (ext_clk p) = true /\ clk_enabled p = false.

(** A board with a clock, two reset lines and a regulator, with delays
    of 5 ms and 100 us, and the same board without the clock. *)
Definition board : mmc_pwrseq_simple :=
  {| clk_enabled := false;
     post_power_on_delay_ms := 5;
     power_off_delay_us := 100;
     ext_clk := Handle 1%nat;
     reset_gpios := Handle {| info := 7%nat; ndescs := 2;
                              desc := [3%nat; 4%nat] |};
     vref := Handle 9%nat |}.


(** A machine holding [p] that has made no call yet, whose allocator
    never fails and whose memory holds ones and zeros in turn. *)
Definition idle (p : mmc_pwrseq_simple) : machine :=
  {| pwrseq := p; heap := []; stale := Nat.odd; vref_now := 3300000;
     trace := [] |}.

(** A board description with no clock and no regulator: the probe
    binds, and the sequencer it builds is the example board without its
    clock and regulator. *)
Definition pdev_without_clk : platform_device :=
  {| devm_kzalloc_ok := true;
     devm_clk_get := ERR_PTR (- ENOENT);
     devm_gpiod_get_array :=
       Handle {| info := 7%nat; ndescs := 2; desc := [3%nat; 4%nat] |};
     prop_post_power_on_delay_ms := Some 5;
     prop_power_off_delay_us := Some 100;
     devm_regulator_get_optional := ERR_PTR (- 19) |}.

(* ================================================================= *)
(** ** Vocabulary for whole runs *)

(** [struct mmc_pwrseq_ops mmc_pwrseq_simple_ops]: the three callbacks
    the MMC core invokes through the registered sequencer. *)
Record mmc_pwrseq_ops : Type := {
  pre_power_on : M unit;
  post_power_on : M unit;
  power_off : M unit
}.

Definition mmc_pwrseq_simple_ops : mmc_pwrseq_ops :=
  {| pre_power_on := mmc_pwrseq_simple_pre_power_on;
     post_power_on := mmc_pwrseq_simple_post_power_on;
     power_off := mmc_pwrseq_simple_power_off |}.

(** One power cycle as the MMC core drives it through the callbacks:
    power up, then power down. *)
Definition power_cycle : M unit :=
  pre_power_on mmc_pwrseq_simple_ops ;;
  post_power_on mmc_pwrseq_simple_ops ;;
  power_off mmc_pwrseq_simple_ops.

(** Everything in the structure but the flag. *)
Definition same_resources (p q : mmc_pwrseq_simple) : Prop :=
  ext_clk q = ext_clk p /\
  reset_gpios q = reset_gpios p /\
  vref q = vref p /\
  post_power_on_delay_ms q = post_power_on_delay_ms p /\
  power_off_delay_us q = power_off_delay_us p.

(** A group write is uniform for the sequencer [p] when it addresses
    the whole group of [p] and carries the same value for every line. *)
Definition uniform_write (p : mmc_pwrseq_simple) (e : event) : Prop :=
  match e with
  | Gpiod_set_array_value_cansleep n d i bits =>
      exists g b,
        reset_gpios p = Handle g /\
        n = to_int (ndescs g) /\ d = desc g /\ i = info g /\
        bits = repeat b (bitmap_bits n) /\
        (gpio_descs_wf g ->
         n = Z.of_nat (List.length d) /\ List.length bits = List.length d)
  | _ => True
  end.

(** A call into the clock or regulator framework is sound for the
    sequencer [p] when it passes the pointer [p] holds and that pointer is
    no error pointer. *)
Definition handle_ok (p : mmc_pwrseq_simple) (e : event) : Prop :=
  match e with
  | Clk_prepare_enable c | Clk_disable_unprepare c =>
      c = ext_clk p /\ IS_ERR c = false
  | Regulator_get_voltage r | Regulator_set_voltage r _ _ =>
      r = vref p /\ IS_ERR r = false
  | _ => True
  end.

Definition is_regulator_call (e : event) : bool :=
  match e with
  | Regulator_get_voltage _ | Regulator_set_voltage _ _ _ => true
  | _ => false
  end.

(** Calls into the driver core: attribute files and registration. *)
Definition is_core_call (e : event) : bool :=
  match e with
  | Device_create_file _ | Device_remove_file _
  | Mmc_pwrseq_register | Mmc_pwrseq_unregister => true
  | _ => false
  end.

(** The attribute files a trace creates, and those it removes, in
    order. *)
Definition created_files (evs : list event) : list device_attribute :=
  flat_map (fun e => match e with Device_create_file a => [a] | _ => [] end)
    evs.

Definition removed_files (evs : list event) : list device_attribute :=
  flat_map (fun e => match e with Device_remove_file a => [a] | _ => [] end)
    evs.

(** 1 when the flag is set, 0 when it is clear. *)
Definition flag (p : mmc_pwrseq_simple) : nat :=
  if clk_enabled p then 1%nat else 0%nat.

(** Requests of the power path (callbacks and power toggle), as
    against those of the voltage control. *)
Definition power_request (r : request) : bool :=
  match r with
  | Read_vref_uV | Write_vref_uV _ _ => false
  | _ => true
  end.

(** What every run of requests keeps, from the structure [p] to the
    structure [q] with the events [evs] added: the resources; uniform
    group writes; sound clock and regulator calls; one more enable than
    disable exactly when the flag rose; no call into the driver core; no
    sleep when both delays are zero. *)
Definition run_ok (p q : mmc_pwrseq_simple) (evs : list event) : Prop :=
  same_resources p q /\
  Forall (fun e => uniform_write p e /\ handle_ok p e) evs /\
  (calls is_clk_enable evs + flag p = calls is_clk_disable evs + flag q)%nat /\
  calls is_core_call evs = 0%nat /\
  (post_power_on_delay_ms p = 0 -> power_off_delay_us p = 0 ->
   calls is_sleep evs = 0%nat).

(* ================================================================= *)
(** ** Basic facts *)

Lemma advance_nil (m : machine) :
  advance m (pwrseq m) (heap m) [] = m.
Proof.
  destruct m as [p h v t]; unfold advance; simpl.
  now rewrite app_nil_r.
Qed.

Lemma advance_advance (m : machine) p h evs p' h' evs' :
  advance (advance m p h evs) p' h' evs' = advance m p' h' (evs ++ evs').
Proof.
  unfold advance; simpl. now rewrite app_assoc.
Qed.

Lemma added_advance (m : machine) p h evs :
  added m (advance m p h evs) = evs.
Proof.
  unfold added, advance; simpl.
  rewrite skipn_app, skipn_all, Nat.sub_diag. reflexivity.
Qed.

Lemma to_int_small (z : Z) : INT_MIN <= z <= INT_MAX -> to_int z = z.
Proof.
  unfold to_int, INT_MIN, INT_MAX; intros H.
  rewrite Z.mod_small; lia.
Qed.

(** For a group as the GPIO core builds it, the [int nvalues] of the
    driver is the number of descriptors, and so is the number of bits of
    its bitmap. *)
Lemma bitmap_bits_wf (g : gpio_descs) :
  gpio_descs_wf g ->
  to_int (ndescs g) = Z.of_nat (List.length (desc g)) /\
  bitmap_bits (to_int (ndescs g)) = List.length (desc g).
Proof.
  intros [Hn Hmax]. unfold INT_MAX in Hmax.
  rewrite to_int_small by (unfold INT_MIN, INT_MAX; lia).
  split; [assumption |].
  unfold bitmap_bits, u32. rewrite Z.mod_small by lia.
  rewrite Hn. apply Nat2Z.id.
Qed.

Lemma u32_double_small (d : Z) : 0 <= d < 2 ^ 31 -> u32 (2 * d) = 2 * d.
Proof.
  unfold u32; intros H. apply Z.mod_small. lia.
Qed.

Ltac run :=
  unfold clk_prepare_enable, clk_disable_unprepare, msleep, usleep_range,
    gpiod_set_array_value_cansleep, regulator_set_voltage,
    regulator_get_voltage, device_create_file, device_remove_file,
    mmc_pwrseq_register, mmc_pwrseq_unregister, store_clk_enabled;
  unfold bind, load, update, emit, skip, ret; simpl.

(** The reset-line driver, as one step of the machine. *)
Lemma set_gpios_value_run (value : Z) (m : machine) :
  mmc_pwrseq_simple_set_gpios_value value m =
  (tt, advance m (pwrseq m) (heap_after_write (pwrseq m) (heap m))
         (reset_write value (pwrseq m) (heap m))).
Proof.
  unfold mmc_pwrseq_simple_set_gpios_value, reset_write, heap_after_write,
    bitmap_alloc, bitmap_fill, bitmap_zero.
  run.
  destruct m as [p h v t]; simpl.
  destruct (reset_gpios p) as [g | e]; simpl.
  - destruct h as [| [|] h]; simpl; unfold advance; simpl;
      try destruct (value =? 0); simpl; rewrite ?app_nil_r; reflexivity.
  - unfold advance; simpl. now rewrite app_nil_r.
Qed.

Lemma reset_write_set_clk_enabled value b p h :
  reset_write value (set_clk_enabled b p) h = reset_write value p h.
Proof. reflexivity. Qed.

Lemma heap_after_write_set_clk_enabled b p h :
  heap_after_write (set_clk_enabled b p) h = heap_after_write p h.
Proof. reflexivity. Qed.

Lemma pre_power_on_run (m : machine) :
  mmc_pwrseq_simple_pre_power_on m =
  (tt, advance m
         (if clk_on_needed (pwrseq m) then set_clk_enabled true (pwrseq m)
          else pwrseq m)
         (heap_after_write (pwrseq m) (heap m))
         ((if clk_on_needed (pwrseq m)
           then [Clk_prepare_enable (ext_clk (pwrseq m))] else [])
          ++ reset_write 1 (pwrseq m) (heap m))).
Proof.
  unfold mmc_pwrseq_simple_pre_power_on, clk_on_needed. run.
  destruct (negb (IS_ERR (ext_clk (pwrseq m))) && negb (clk_enabled (pwrseq m)));
    simpl; rewrite set_gpios_value_run; unfold advance; simpl;
    rewrite <- ?app_assoc; reflexivity.
Qed.

Lemma post_power_on_run (m : machine) :
  mmc_pwrseq_simple_post_power_on m =
  (tt, advance m (pwrseq m) (heap_after_write (pwrseq m) (heap m))
         (reset_write 0 (pwrseq m) (heap m)
          ++ (if post_power_on_delay_ms (pwrseq m) =? 0 then []
              else [Msleep (post_power_on_delay_ms (pwrseq m))]))).
Proof.
  unfold mmc_pwrseq_simple_post_power_on. run.
  rewrite set_gpios_value_run; simpl.
  destruct (post_power_on_delay_ms (pwrseq m) =? 0); simpl;
    unfold advance; simpl; rewrite <- ?app_assoc, ?app_nil_r; reflexivity.
Qed.

Lemma power_off_run (m : machine) :
  mmc_pwrseq_simple_power_off m =
  (tt, advance m
         (if clk_off_needed (pwrseq m) then set_clk_enabled false (pwrseq m)
          else pwrseq m)
         (heap_after_write (pwrseq m) (heap m))
         (reset_write 1 (pwrseq m) (heap m)
          ++ (if power_off_delay_us (pwrseq m) =? 0 then []
              else [Usleep_range (power_off_delay_us (pwrseq m))
                      (u32 (2 * power_off_delay_us (pwrseq m)))])
          ++ (if clk_off_needed (pwrseq m)
              then [Clk_disable_unprepare (ext_clk (pwrseq m))] else []))).
Proof.
  unfold mmc_pwrseq_simple_power_off, clk_off_needed. run.
  rewrite set_gpios_value_run; simpl.
  destruct (power_off_delay_us (pwrseq m) =? 0); simpl;
    destruct (negb (IS_ERR (ext_clk (pwrseq m))) && clk_enabled (pwrseq m));
    simpl; unfold advance; simpl; rewrite <- ?app_assoc, ?app_nil_r;
    reflexivity.
Qed.

Lemma calls_app f (a b : list event) :
  calls f (a ++ b) = (calls f a + calls f b)%nat.
Proof.
  unfold calls. now rewrite filter_app, length_app.
Qed.

Lemma calls_reset_write f value p h :
  (forall n d i bits, f (Gpiod_set_array_value_cansleep n d i bits) = false) ->
  calls f (reset_write value p h) = 0%nat.
Proof.
  intros Hf. unfold reset_write, calls.
  destruct (reset_gpios p); [destruct (alloc_ok h) |]; simpl;
    rewrite ?Hf; reflexivity.
Qed.

Lemma existsb_negb_repeat_true (n : nat) : existsb negb (repeat true n) = false.
Proof. induction n; simpl; auto. Qed.

Lemma reset_write_high_not_low p h :
  existsb drives_low (reset_write 1 p h) = false.
Proof.
  unfold reset_write.
  destruct (reset_gpios p); [destruct (alloc_ok h) |]; simpl;
    rewrite ?existsb_negb_repeat_true; reflexivity.
Qed.

Lemma exec_bind {A B} (c : M A) (k : A -> M B) (m : machine) :
  exec (bind c k) m = exec (k (result c m)) (exec c m).
Proof.
  unfold exec, result, bind. destruct (c m); reflexivity.
Qed.

Lemma exec_of_run {A} (c : M A) (m : machine) (a : A) (m' : machine) :
  c m = (a, m') -> exec c m = m' /\ result c m = a.
Proof. unfold exec, result. now intros ->. Qed.

Lemma exec_pre_power_on (m : machine) :
  exec mmc_pwrseq_simple_pre_power_on m =
  advance m
    (if clk_on_needed (pwrseq m) then set_clk_enabled true (pwrseq m)
     else pwrseq m)
    (heap_after_write (pwrseq m) (heap m))
    ((if clk_on_needed (pwrseq m)
      then [Clk_prepare_enable (ext_clk (pwrseq m))] else [])
     ++ reset_write 1 (pwrseq m) (heap m)).
Proof. unfold exec. now rewrite pre_power_on_run. Qed.

Lemma exec_post_power_on (m : machine) :
  exec mmc_pwrseq_simple_post_power_on m =
  advance m (pwrseq m) (heap_after_write (pwrseq m) (heap m))
    (reset_write 0 (pwrseq m) (heap m)
     ++ (if post_power_on_delay_ms (pwrseq m) =? 0 then []
         else [Msleep (post_power_on_delay_ms (pwrseq m))])).
Proof. unfold exec. now rewrite post_power_on_run. Qed.

Lemma exec_power_off (m : machine) :
  exec mmc_pwrseq_simple_power_off m =
  advance m
    (if clk_off_needed (pwrseq m) then set_clk_enabled false (pwrseq m)
     else pwrseq m)
    (heap_after_write (pwrseq m) (heap m))
    (reset_write 1 (pwrseq m) (heap m)
     ++ (if power_off_delay_us (pwrseq m) =? 0 then []
         else [Usleep_range (power_off_delay_us (pwrseq m))
                 (u32 (2 * power_off_delay_us (pwrseq m)))])
     ++ (if clk_off_needed (pwrseq m)
         then [Clk_disable_unprepare (ext_clk (pwrseq m))] else [])).
Proof. unfold exec. now rewrite power_off_run. Qed.

(* ================================================================= *)
(** ** The reset-line driver *)

(** C4: for every target value, and whatever the fresh bitmap held
    before the driver filled or cleared it, the reset-line driver either
    makes one group-write call whose bitmap holds that value for every
    line of the group, or leaves the trace as it was.  With no group it
    does nothing at all; when [bitmap_alloc] fails the write is skipped
    and nothing is reported; there is never a write of only some of the
    lines, nor of mixed values.  The structure is not changed. *)
Theorem set_gpios_value_all_or_nothing (value : Z) (m : machine) :
  let m' := exec (mmc_pwrseq_simple_set_gpios_value value) m in
  result (mmc_pwrseq_simple_set_gpios_value value) m = tt /\
  pwrseq m' = pwrseq m /\
  match reset_gpios (pwrseq m) with
  | ERR_PTR _ => m' = m
  | Handle g =>
      if alloc_ok (heap m) then
        exists bits,
          trace m' =
            trace m ++
            [Gpiod_set_array_value_cansleep (to_int (ndescs g)) (desc g)
               (info g) bits] /\
          List.length bits = bitmap_bits (to_int (ndescs g)) /\
          Forall (fun b => b = negb (value =? 0)) bits /\
          (gpio_descs_wf g -> List.length bits = List.length (desc g))
      else trace m' = trace m
  end.
Proof.
  unfold exec, result. rewrite set_gpios_value_run. simpl.
  split; [reflexivity | split; [reflexivity |]].
  unfold reset_write, heap_after_write.
  destruct (reset_gpios (pwrseq m)) as [g | e]; simpl.
  - destruct (alloc_ok (heap m)); simpl.
    + eexists. split; [reflexivity |].
      split; [apply repeat_length |].
      split.
      * apply Forall_forall. intros b Hb. now apply repeat_spec in Hb.
      * intros Hwf. rewrite repeat_length. now apply bitmap_bits_wf.
    + apply app_nil_r.
  - apply advance_nil.
Qed.

(** The fresh bitmap of the example machines is not uniform; the
    driver overwrites it.  A group of two lines driven high: *)
Example fresh_bitmap_is_stale :
  fresh_bitmap
    {| pwrseq := kzalloc_pwrseq; heap := []; stale := Nat.odd; vref_now := 0;
       trace := [] |} 2
  = [false; true].
Proof. reflexivity. Qed.

Example set_gpios_value_two_lines :
  exec (mmc_pwrseq_simple_set_gpios_value 1)
    {| pwrseq := {| clk_enabled := false; post_power_on_delay_ms := 0;
                    power_off_delay_us := 0; ext_clk := ERR_PTR (- ENOENT);
                    reset_gpios :=
                      Handle {| info := 7%nat; ndescs := 2;
                                desc := [3%nat; 4%nat] |};
                    vref := ERR_PTR (- 19) |};
       heap := []; stale := Nat.odd; vref_now := 0; trace := [] |}
  = {| pwrseq := {| clk_enabled := false; post_power_on_delay_ms := 0;
                    power_off_delay_us := 0; ext_clk := ERR_PTR (- ENOENT);
                    reset_gpios :=
                      Handle {| info := 7%nat; ndescs := 2;
                                desc := [3%nat; 4%nat] |};
                    vref := ERR_PTR (- 19) |};
       heap := []; stale := Nat.odd; vref_now := 0;
       trace := [Gpiod_set_array_value_cansleep 2 [3%nat; 4%nat] 7%nat
                   [true; true]] |}.
Proof. reflexivity. Qed.

(* ================================================================= *)
(** ** Pre-power-on, post-power-on, power-off *)

(** C1: pre-power-on first calls [clk_prepare_enable] and sets
    [clk_enabled], exactly when there is a clock handle and the flag is
    clear; then it runs the reset-line driver with value 1, which (as C4
    says) is one group write of all ones, or nothing when there is no
    group or the bitmap cannot be allocated.  No other field of the
    structure changes, and nothing else is called. *)
Theorem pre_power_on_effect (m : machine) :
  let p := pwrseq m in
  let enable := negb (IS_ERR (ext_clk p)) && negb (clk_enabled p) in
  let high :=
    match reset_gpios p with
    | ERR_PTR _ => []
    | Handle g =>
        if alloc_ok (heap m) then
          [Gpiod_set_array_value_cansleep (to_int (ndescs g)) (desc g) (info g)
             (repeat true (bitmap_bits (to_int (ndescs g))))]
        else []
    end in
  let m' := exec mmc_pwrseq_simple_pre_power_on m in
  trace m' =
    trace m ++
    (if enable then [Clk_prepare_enable (ext_clk p)] else []) ++ high /\
  pwrseq m' =
    {| clk_enabled := if enable then true else clk_enabled p;
       post_power_on_delay_ms := post_power_on_delay_ms p;
       power_off_delay_us := power_off_delay_us p;
       ext_clk := ext_clk p;
       reset_gpios := reset_gpios p;
       vref := vref p |} /\
  vref_now m' = vref_now m.
Proof.
  simpl. rewrite exec_pre_power_on. unfold clk_on_needed, advance; simpl.
  split; [reflexivity |].
  split; [| reflexivity].
  destruct (pwrseq m) as [en d1 d2 c g v]; simpl.
  destruct (negb (IS_ERR c) && negb en); reflexivity.
Qed.

(** C5: post-power-on runs the reset-line driver with value 0 and then
    calls [msleep] with the configured number of milliseconds when that is
    not zero; with a zero delay it makes no sleep call.  It changes no
    field.  Of the three lifecycle callbacks only this one ever writes a 0
    to a reset line: every group write of pre-power-on and of power-off is
    all ones. *)
Theorem post_power_on_effect (m : machine) :
  let p := pwrseq m in
  let low :=
    match reset_gpios p with
    | ERR_PTR _ => []
    | Handle g =>
        if alloc_ok (heap m) then
          [Gpiod_set_array_value_cansleep (to_int (ndescs g)) (desc g) (info g)
             (repeat false (bitmap_bits (to_int (ndescs g))))]
        else []
    end in
  let m' := exec mmc_pwrseq_simple_post_power_on m in
  trace m' =
    trace m ++ low ++
    (if post_power_on_delay_ms p =? 0 then []
     else [Msleep (post_power_on_delay_ms p)]) /\
  pwrseq m' = p /\
  (post_power_on_delay_ms p = 0 -> calls is_sleep (added m m') = 0%nat) /\
  (0 < post_power_on_delay_ms p ->
   filter is_sleep (added m m') = [Msleep (post_power_on_delay_ms p)]) /\
  existsb drives_low (added m (exec mmc_pwrseq_simple_pre_power_on m)) = false /\
  existsb drives_low (added m (exec mmc_pwrseq_simple_power_off m)) = false.
Proof.
  simpl. rewrite exec_post_power_on, exec_pre_power_on, exec_power_off.
  rewrite !added_advance.
  split; [reflexivity |].
  split; [reflexivity |].
  split; [| split; [| split]].
  - intros H0. rewrite H0; simpl. rewrite calls_app; simpl.
    now rewrite calls_reset_write.
  - intros Hpos.
    destruct (Z.eqb_spec (post_power_on_delay_ms (pwrseq m)) 0) as [E | _];
      [lia |].
    rewrite filter_app; simpl.
    assert (Hnil : filter is_sleep (reset_write 0 (pwrseq m) (heap m)) = []).
    { apply length_zero_iff_nil. now apply calls_reset_write. }
    now rewrite Hnil.
  - rewrite existsb_app, reset_write_high_not_low.
    destruct (clk_on_needed (pwrseq m)); reflexivity.
  - rewrite !existsb_app, reset_write_high_not_low.
    destruct (power_off_delay_us (pwrseq m) =? 0);
      destruct (clk_off_needed (pwrseq m)); reflexivity.
Qed.

Lemma post_power_on_effect_witness :
  filter is_sleep
    (added (idle board) (exec mmc_pwrseq_simple_post_power_on (idle board)))
  = [Msleep 5].
Proof.
  apply (post_power_on_effect (idle board)). reflexivity.
Defined.

(** Power-off, step by step: the reset-line driver with value 1; then,
    with a delay that is not zero, [usleep_range] from the delay to
    twice the delay as the [u32] product gives it; then, with a clock
    handle and the flag set, [clk_disable_unprepare] and the flag
    cleared. *)
Lemma power_off_effect (m : machine) :
  let p := pwrseq m in
  let disable := negb (IS_ERR (ext_clk p)) && clk_enabled p in
  let m' := exec mmc_pwrseq_simple_power_off m in
  trace m' =
    trace m ++ reset_write 1 p (heap m) ++
    (if power_off_delay_us p =? 0 then []
     else [Usleep_range (power_off_delay_us p) (u32 (2 * power_off_delay_us p))])
    ++ (if disable then [Clk_disable_unprepare (ext_clk p)] else []) /\
  pwrseq m' = (if disable then set_clk_enabled false p else p).
Proof.
  simpl. rewrite exec_power_off. unfold clk_off_needed, advance; simpl.
  split; reflexivity.
Qed.

(** Below 2^31 microseconds the upper bound of the sleep is twice the
    delay. *)
Lemma power_off_sleep_range (m : machine) :
  0 < power_off_delay_us (pwrseq m) < 2 ^ 31 ->
  filter is_sleep (added m (exec mmc_pwrseq_simple_power_off m)) =
  [Usleep_range (power_off_delay_us (pwrseq m))
     (2 * power_off_delay_us (pwrseq m))].
Proof.
  intros Hd. rewrite exec_power_off, added_advance.
  destruct (Z.eqb_spec (power_off_delay_us (pwrseq m)) 0) as [E | _]; [lia |].
  rewrite u32_double_small by lia.
  rewrite !filter_app; simpl.
  assert (Hnil : filter is_sleep (reset_write 1 (pwrseq m) (heap m)) = []).
  { apply length_zero_iff_nil. now apply calls_reset_write. }
  rewrite Hnil. destruct (clk_off_needed (pwrseq m)); reflexivity.
Qed.

(** C2: with a power-off delay of 2^31 microseconds, a value the [u32]
    property can hold, the product [2 * power_off_delay_us] wraps to 0:
    power-off asks [usleep_range] for the range from 2147483648 down to 0
    and not up to 4294967296. *)
Theorem power_off_delay_wraps :
  exec mmc_pwrseq_simple_power_off
    (idle (set_clk_enabled true (set_power_off_delay_us (2 ^ 31) board)))
  = {| pwrseq := set_power_off_delay_us (2 ^ 31) board;
       heap := [];
       stale := Nat.odd;
       vref_now := 3300000;
       trace := [Gpiod_set_array_value_cansleep 2 [3%nat; 4%nat] 7%nat
                   [true; true];
                 Usleep_range 2147483648 0;
                 Clk_disable_unprepare (Handle 1%nat)] |}.
Proof. reflexivity. Qed.

(* ================================================================= *)
(** ** Calling a callback twice *)






(* ================================================================= *)
(** ** Matching the tokens of the power toggle *)

Local Open Scope string_scope.

(** [sysfs_streq] holds of two C strings when they are equal or one is
    the other followed by a newline. *)
Lemma sysfs_streq_spec (s1 s2 : string) :
  sysfs_streq s1 s2 = true <->
  s1 = s2 \/ s1 = s2 ++ newline \/ s2 = s1 ++ newline.
Proof.
  revert s2. induction s1 as [| c1 r1 IH]; intros [| c2 r2]; simpl.
  - split; auto.
  - destruct r2 as [| c3 r3].
    + destruct (Ascii.eqb_spec c2 NL) as [-> | Hne].
      * split; auto.
      * split; [discriminate |].
        intros [H | [H | H]]; try discriminate.
        unfold newline in H. congruence.
    + split; [discriminate |].
      intros [H | [H | H]]; discriminate.
  - destruct r1 as [| c3 r3].
    + destruct (Ascii.eqb_spec c1 NL) as [-> | Hne].
      * split; auto.
      * split; [discriminate |].
        intros [H | [H | H]]; try discriminate.
        unfold newline in H. congruence.
    + split; [discriminate |].
      intros [H | [H | H]]; discriminate.
  - destruct (Ascii.eqb_spec c1 c2) as [-> | Hne].
    + rewrite IH. split.
      * intros [-> | [-> | ->]]; auto.
      * intros [H | [H | H]]; injection H; auto.
    + split; [discriminate |].
      intros [H | [H | H]]; injection H; congruence.
Qed.

Lemma sysfs_streq_token (s tok : string) :
  newline_free_end tok ->
  sysfs_streq s tok = true <-> s = tok \/ s = tok ++ newline.
Proof.
  intros Hfree. rewrite sysfs_streq_spec. split.
  - intros [H | [H | H]]; auto. now apply Hfree in H.
  - intros [H | H]; auto.
Qed.

Lemma newline_free_on : newline_free_end "on".
Proof. intros [| a [| b [| c s]]]; discriminate. Qed.

Lemma newline_free_1 : newline_free_end "1".
Proof. intros [| a [| b s]]; discriminate. Qed.

Lemma newline_free_off : newline_free_end "off".
Proof. intros [| a [| b [| c [| d s]]]]; discriminate. Qed.

Lemma newline_free_0 : newline_free_end "0".
Proof. intros [| a [| b s]]; discriminate. Qed.

Lemma says_on_spec (s : string) :
  says_on s = true <->
  s = "on" \/ s = "on" ++ newline \/ s = "1" \/ s = "1" ++ newline.
Proof.
  unfold says_on. rewrite orb_true_iff.
  rewrite (sysfs_streq_token s "on" newline_free_on).
  rewrite (sysfs_streq_token s "1" newline_free_1). tauto.
Qed.

Lemma says_off_spec (s : string) :
  says_off s = true <->
  s = "off" \/ s = "off" ++ newline \/ s = "0" \/ s = "0" ++ newline.
Proof.
  unfold says_off. rewrite orb_true_iff.
  rewrite (sysfs_streq_token s "off" newline_free_off).
  rewrite (sysfs_streq_token s "0" newline_free_0). tauto.
Qed.

Lemma says_off_not_on (s : string) : says_off s = true -> says_on s = false.
Proof.
  intros Hoff. apply says_off_spec in Hoff.
  apply not_true_iff_false. intros Hon. apply says_on_spec in Hon.
  destruct Hoff as [-> | [-> | [-> | ->]]];
    destruct Hon as [H | [H | [H | H]]]; discriminate.
Qed.

Local Close Scope string_scope.

(* ================================================================= *)
(** ** The power toggle *)

(** The three branches of [pwr_gpio_store]. *)
Lemma pwr_gpio_store_on (buf : string) (count : Z) (m : machine) :
  says_on (c_str buf) = true ->
  pwr_gpio_store buf count m =
  (count,
   exec mmc_pwrseq_simple_post_power_on
     (exec mmc_pwrseq_simple_pre_power_on m)).
Proof.
  unfold says_on, pwr_gpio_store. intros ->.
  rewrite exec_post_power_on, exec_pre_power_on. run.
  unfold clk_on_needed.
  destruct (negb (IS_ERR (ext_clk (pwrseq m))) && negb (clk_enabled (pwrseq m)));
    simpl; rewrite !set_gpios_value_run; simpl;
    destruct (post_power_on_delay_ms (pwrseq m) =? 0); simpl;
    unfold advance; simpl; rewrite <- ?app_assoc, ?app_nil_r; reflexivity.
Qed.

Lemma pwr_gpio_store_off (buf : string) (count : Z) (m : machine) :
  says_off (c_str buf) = true ->
  pwr_gpio_store buf count m = (count, exec mmc_pwrseq_simple_power_off m).
Proof.
  intros Hoff. pose proof (says_off_not_on _ Hoff) as Hon.
  unfold says_on, says_off in *. unfold pwr_gpio_store.
  rewrite Hon, Hoff. rewrite exec_power_off. run.
  rewrite set_gpios_value_run; simpl. unfold clk_off_needed.
  destruct (power_off_delay_us (pwrseq m) =? 0); simpl;
    destruct (negb (IS_ERR (ext_clk (pwrseq m))) && clk_enabled (pwrseq m));
    simpl; unfold advance; simpl; rewrite <- ?app_assoc, ?app_nil_r;
    reflexivity.
Qed.

Lemma pwr_gpio_store_other (buf : string) (count : Z) (m : machine) :
  says_on (c_str buf) = false ->
  says_off (c_str buf) = false ->
  pwr_gpio_store buf count m = (count, m).
Proof.
  unfold says_on, says_off, pwr_gpio_store. intros -> ->. reflexivity.
Qed.

(** C6: for every write to the power toggle the value returned is
    [count].  When the C string in the buffer matches "on" or "1" (the
    token, or the token and a newline) the write does what pre-power-on
    followed by post-power-on do: [clk_prepare_enable] and the flag set
    when there is a clock and the flag is clear, the reset-line driver
    with 1 and then with 0, and [msleep] when the delay is not zero.  When
    it matches "off" or "0" the write does what power-off does.  Any other
    buffer leaves the machine, flag and trace included, as it was. *)
Theorem pwr_gpio_store_effect (buf : string) (count : Z) (m : machine) :
  let s := c_str buf in
  let p := pwrseq m in
  let m' := exec (pwr_gpio_store buf count) m in
  result (pwr_gpio_store buf count) m = count /\
  (sysfs_streq s "on" || sysfs_streq s "1" = true ->
   m' = exec (mmc_pwrseq_simple_pre_power_on ;;
              mmc_pwrseq_simple_post_power_on) m /\
   trace m' =
     trace m ++
     (if negb (IS_ERR (ext_clk p)) && negb (clk_enabled p)
      then [Clk_prepare_enable (ext_clk p)] else []) ++
     reset_write 1 p (heap m) ++
     reset_write 0 p (heap_after_write p (heap m)) ++
     (if post_power_on_delay_ms p =? 0 then []
      else [Msleep (post_power_on_delay_ms p)]) /\
   clk_enabled (pwrseq m') = negb (IS_ERR (ext_clk p)) || clk_enabled p) /\
  (sysfs_streq s "off" || sysfs_streq s "0" = true ->
   m' = exec mmc_pwrseq_simple_power_off m) /\
  (sysfs_streq s "on" || sysfs_streq s "1" = false ->
   sysfs_streq s "off" || sysfs_streq s "0" = false ->
   m' = m).
Proof.
  simpl. fold (says_on (c_str buf)) (says_off (c_str buf)).
  destruct (says_on (c_str buf)) eqn:Hon.
  - destruct (exec_of_run _ _ _ _ (pwr_gpio_store_on buf count m Hon))
      as [-> ->].
    split; [reflexivity |].
    split; [| split; [| discriminate]].
    + intros _. rewrite exec_bind.
      split; [reflexivity |].
      rewrite exec_post_power_on, exec_pre_power_on.
      unfold advance, clk_on_needed; simpl.
      destruct (pwrseq m) as [en d1 d2 c g v]; simpl.
      destruct (IS_ERR c), en; simpl; rewrite <- ?app_assoc;
        split; reflexivity.
    + intros Hoff. apply says_off_not_on in Hoff. congruence.
  - destruct (says_off (c_str buf)) eqn:Hoff.
    + destruct (exec_of_run _ _ _ _ (pwr_gpio_store_off buf count m Hoff))
        as [-> ->].
      split; [reflexivity |].
      split; [discriminate |].
      split; [reflexivity | discriminate].
    + destruct (exec_of_run _ _ _ _ (pwr_gpio_store_other buf count m Hon Hoff))
        as [-> ->].
      split; [reflexivity |].
      split; [discriminate |].
      split; [discriminate | reflexivity].
Qed.

Lemma pwr_gpio_store_effect_witness :
  exec (pwr_gpio_store "toggle" 6) (idle board) = idle board.
Proof.
  apply (pwr_gpio_store_effect "toggle" 6 (idle board)); reflexivity.
Defined.

(** "on" on the example board: clock enabled, lines pulsed high then
    low, 5 ms of sleep, and the whole write consumed. *)
Example pwr_gpio_store_on_board :
  pwr_gpio_store "on" 2 (idle board) =
  (2, {| pwrseq := set_clk_enabled true board;
         heap := [];
         stale := Nat.odd;
         vref_now := 3300000;
         trace := [Clk_prepare_enable (Handle 1%nat);
                   Gpiod_set_array_value_cansleep 2 [3%nat; 4%nat] 7%nat
                     [true; true];
                   Gpiod_set_array_value_cansleep 2 [3%nat; 4%nat] 7%nat
                     [false; false];
                   Msleep 5] |}).
Proof. reflexivity. Qed.

(** C7: a write that matches "off" or "0" and the power-off callback
    take every machine to the same machine: the same calls in the same
    order are added to the trace (the reset-line write of 1, the
    [usleep_range] when the delay is not zero, the [clk_disable_unprepare]
    with the flag cleared when a clock is there and enabled), and the same
    structure results. *)
Theorem pwr_gpio_store_off_is_power_off
    (buf : string) (count : Z) (m : machine) :
  sysfs_streq (c_str buf) "off" || sysfs_streq (c_str buf) "0" = true ->
  exec (pwr_gpio_store buf count) m = exec mmc_pwrseq_simple_power_off m.
Proof.
  intros Hoff.
  now destruct (exec_of_run _ _ _ _ (pwr_gpio_store_off buf count m Hoff)).
Qed.

Lemma pwr_gpio_store_off_is_power_off_witness :
  exec (pwr_gpio_store (String "o" (String "f" (String "f" newline))) 4)
    (idle (set_clk_enabled true board))
  = exec mmc_pwrseq_simple_power_off (idle (set_clk_enabled true board)).
Proof.
  apply (pwr_gpio_store_off_is_power_off
           (String "o" (String "f" (String "f" newline))) 4
           (idle (set_clk_enabled true board))).
  reflexivity.
Defined.

(* ================================================================= *)
(** ** Bind *)

Lemma probe_no_memory (pdev : platform_device) (m : machine) :
  devm_kzalloc_ok pdev = false ->
  mmc_pwrseq_simple_probe pdev m = (- ENOMEM, m).
Proof.
  unfold mmc_pwrseq_simple_probe. intros ->. reflexivity.
Qed.

Lemma probe_clk_fatal (pdev : platform_device) (m : machine) :
  devm_kzalloc_ok pdev = true ->
  clk_tolerated (devm_clk_get pdev) = false ->
  result (mmc_pwrseq_simple_probe pdev) m = PTR_ERR (devm_clk_get pdev) /\
  trace (exec (mmc_pwrseq_simple_probe pdev) m) = trace m.
Proof.
  unfold mmc_pwrseq_simple_probe, exec, result. intros -> Hc. run.
  destruct (devm_clk_get pdev) as [c | e]; simpl in *; [discriminate |].
  rewrite Hc; simpl. split; reflexivity.
Qed.

Lemma probe_gpios_fatal (pdev : platform_device) (m : machine) :
  devm_kzalloc_ok pdev = true ->
  clk_tolerated (devm_clk_get pdev) = true ->
  gpios_tolerated (devm_gpiod_get_array pdev) = false ->
  result (mmc_pwrseq_simple_probe pdev) m = PTR_ERR (devm_gpiod_get_array pdev) /\
  trace (exec (mmc_pwrseq_simple_probe pdev) m) = trace m.
Proof.
  unfold mmc_pwrseq_simple_probe, exec, result. intros -> Hc Hg.
  destruct (devm_gpiod_get_array pdev) as [g | eg]; simpl in Hg;
    [discriminate |].
  apply orb_false_iff in Hg. destruct Hg as [Hg1 Hg2].
  destruct (devm_clk_get pdev) as [c | ec]; simpl in Hc;
    [| apply Z.eqb_eq in Hc; subst ec]; run; unfold ENOENT, ENOSYS in *;
    simpl in *; rewrite Hg1, Hg2; simpl; split; reflexivity.
Qed.

Lemma probe_binds (pdev : platform_device) (m : machine) :
  devm_kzalloc_ok pdev = true ->
  clk_tolerated (devm_clk_get pdev) = true ->
  gpios_tolerated (devm_gpiod_get_array pdev) = true ->
  mmc_pwrseq_simple_probe pdev m =
  (0, advance m (bound_pwrseq pdev) (heap m)
        ([Device_create_file dev_attr_pwr_gpio] ++
         (if IS_ERR (devm_regulator_get_optional pdev) then []
          else [Device_create_file dev_attr_vref_uV]) ++
         [Mmc_pwrseq_register])).
Proof.
  unfold mmc_pwrseq_simple_probe, bound_pwrseq, advance,
    device_property_read_u32.
  intros -> Hc Hg.
  destruct (devm_gpiod_get_array pdev) as [g | eg]; simpl in Hg;
    [| apply orb_true_iff in Hg; rewrite !Z.eqb_eq in Hg];
    (destruct (devm_clk_get pdev) as [c | ec]; simpl in Hc;
     [| apply Z.eqb_eq in Hc; subst ec]);
    try (destruct Hg; subst eg);
    destruct (prop_post_power_on_delay_ms pdev), (prop_power_off_delay_us pdev),
      (devm_regulator_get_optional pdev); run; rewrite <- ?app_assoc;
    reflexivity.
Qed.

(** C9: with the structure allocated, a probe whose clock lookup gives
    a handle or [-ENOENT] and whose line-group lookup gives a handle,
    [-ENOENT] or [-ENOSYS] returns 0, whatever the regulator lookup gives;
    it creates the power-toggle attribute and then registers, and it
    creates the voltage attribute exactly when the regulator lookup gave a
    handle.  Any other clock error, and with a tolerated clock any other
    line-group error, is returned as it is, and then no attribute is
    created and nothing is registered. *)
Theorem probe_outcome (pdev : platform_device) (m : machine) :
  devm_kzalloc_ok pdev = true ->
  let ret := result (mmc_pwrseq_simple_probe pdev) m in
  let m' := exec (mmc_pwrseq_simple_probe pdev) m in
  (clk_tolerated (devm_clk_get pdev) = true ->
   gpios_tolerated (devm_gpiod_get_array pdev) = true ->
   ret = 0 /\
   pwrseq m' = bound_pwrseq pdev /\
   trace m' =
     trace m ++
     [Device_create_file dev_attr_pwr_gpio] ++
     (if IS_ERR (devm_regulator_get_optional pdev) then []
      else [Device_create_file dev_attr_vref_uV]) ++
     [Mmc_pwrseq_register]) /\
  (clk_tolerated (devm_clk_get pdev) = false ->
   ret = PTR_ERR (devm_clk_get pdev) /\
   (errno_in_range (devm_clk_get pdev) -> ret < 0) /\
   trace m' = trace m) /\
  (clk_tolerated (devm_clk_get pdev) = true ->
   gpios_tolerated (devm_gpiod_get_array pdev) = false ->
   ret = PTR_ERR (devm_gpiod_get_array pdev) /\
   (errno_in_range (devm_gpiod_get_array pdev) -> ret < 0) /\
   trace m' = trace m).
Proof.
  intros Hk. simpl. split; [| split].
  - intros Hc Hg.
    destruct (exec_of_run _ _ _ _ (probe_binds pdev m Hk Hc Hg)) as [-> ->].
    repeat split.
  - intros Hc. destruct (probe_clk_fatal pdev m Hk Hc) as [-> ->].
    repeat split.
    destruct (devm_clk_get pdev) as [c | e]; simpl in *; [discriminate | lia].
  - intros Hc Hg. destruct (probe_gpios_fatal pdev m Hk Hc Hg) as [-> ->].
    repeat split.
    destruct (devm_gpiod_get_array pdev) as [g | e]; simpl in *;
      [discriminate | lia].
Qed.

Lemma probe_outcome_witness :
  result (mmc_pwrseq_simple_probe pdev_without_clk) (power_up [] 0) = 0 /\
  pwrseq (exec (mmc_pwrseq_simple_probe pdev_without_clk) (power_up [] 0))
  = bound_pwrseq pdev_without_clk /\
  trace (exec (mmc_pwrseq_simple_probe pdev_without_clk) (power_up [] 0))
  = [Device_create_file dev_attr_pwr_gpio; Mmc_pwrseq_register].
Proof.
  apply (probe_outcome pdev_without_clk (power_up [] 0)); reflexivity.
Defined.

(* ================================================================= *)
(** ** A sequencer without a clock *)

Lemma vref_uV_show_pwrseq (m : machine) :
  pwrseq (exec vref_uV_show m) = pwrseq m.
Proof.
  unfold exec, vref_uV_show. run.
  destruct (IS_ERR (vref (pwrseq m))); reflexivity.
Qed.

Lemma vref_uV_store_pwrseq (buf : string) (count : Z) (m : machine) :
  pwrseq (exec (vref_uV_store buf count) m) = pwrseq m.
Proof.
  unfold exec, vref_uV_store. run.
  destruct (IS_ERR (vref (pwrseq m))); [reflexivity |].
  destruct (kstrtol (c_str buf)); [reflexivity |].
  destruct (sscanf_ld_ld (c_str buf)) as [| a [| b [| c l]]]; reflexivity.
Qed.

Lemma clk_never_on_pre_power_on (m : machine) :
  clk_never_on (pwrseq m) ->
  clk_never_on (pwrseq (exec mmc_pwrseq_simple_pre_power_on m)).
Proof.
  intros [Hc He]. rewrite exec_pre_power_on. unfold clk_on_needed; simpl.
  rewrite Hc; simpl. now split.
Qed.

Lemma clk_never_on_post_power_on (m : machine) :
  clk_never_on (pwrseq m) ->
  clk_never_on (pwrseq (exec mmc_pwrseq_simple_post_power_on m)).
Proof. intros H. now rewrite exec_post_power_on. Qed.

Lemma clk_never_on_power_off (m : machine) :
  clk_never_on (pwrseq m) ->
  clk_never_on (pwrseq (exec mmc_pwrseq_simple_power_off m)).
Proof.
  intros [Hc He]. rewrite exec_power_off. unfold clk_off_needed; simpl.
  rewrite Hc; simpl. now split.
Qed.

Lemma clk_never_on_pwr_gpio_store (buf : string) (count : Z) (m : machine) :
  clk_never_on (pwrseq m) ->
  clk_never_on (pwrseq (exec (pwr_gpio_store buf count) m)).
Proof.
  intros H.
  destruct (says_on (c_str buf)) eqn:Hon.
  - destruct (exec_of_run _ _ _ _ (pwr_gpio_store_on buf count m Hon))
      as [-> _].
    now apply clk_never_on_post_power_on, clk_never_on_pre_power_on.
  - destruct (says_off (c_str buf)) eqn:Hoff.
    + destruct (exec_of_run _ _ _ _ (pwr_gpio_store_off buf count m Hoff))
        as [-> _].
      now apply clk_never_on_power_off.
    + now destruct (exec_of_run _ _ _ _
                      (pwr_gpio_store_other buf count m Hon Hoff)) as [-> _].
Qed.

Lemma clk_never_on_serve (r : request) (m : machine) :
  clk_never_on (pwrseq m) -> clk_never_on (pwrseq (exec (serve r) m)).
Proof.
  intros H. destruct r; simpl.
  - now apply clk_never_on_pre_power_on.
  - now apply clk_never_on_post_power_on.
  - now apply clk_never_on_power_off.
  - exact H.
  - rewrite exec_bind. now apply clk_never_on_pwr_gpio_store.
  - rewrite exec_bind. change (exec skip ?x) with x.
    now rewrite vref_uV_show_pwrseq.
  - rewrite exec_bind. change (exec skip ?x) with x.
    now rewrite vref_uV_store_pwrseq.
Qed.

Lemma clk_never_on_serve_all (rs : list request) (m : machine) :
  clk_never_on (pwrseq m) -> clk_never_on (pwrseq (serve_all rs m)).
Proof.
  revert m. induction rs as [| r rs IH]; intros m H; simpl; [exact H |].
  apply IH. now apply clk_never_on_serve.
Qed.

(** A probe that returns 0 got the structure and tolerated both
    lookups. *)
Lemma probe_bound_inv (pdev : platform_device) (m : machine) :
  result (mmc_pwrseq_simple_probe pdev) m = 0 ->
  errno_in_range (devm_clk_get pdev) ->
  errno_in_range (devm_gpiod_get_array pdev) ->
  devm_kzalloc_ok pdev = true /\
  clk_tolerated (devm_clk_get pdev) = true /\
  gpios_tolerated (devm_gpiod_get_array pdev) = true.
Proof.
  intros Hret Hec Heg.
  assert (Hk : devm_kzalloc_ok pdev = true).
  { destruct (devm_kzalloc_ok pdev) eqn:E; [reflexivity |].
    unfold result in Hret. rewrite (probe_no_memory pdev m E) in Hret.
    discriminate. }
  assert (Hc : clk_tolerated (devm_clk_get pdev) = true).
  { destruct (clk_tolerated (devm_clk_get pdev)) eqn:E; [reflexivity |].
    destruct (probe_clk_fatal pdev m Hk E) as [Hr _].
    destruct (devm_clk_get pdev); simpl in *; [discriminate | lia]. }
  assert (Hg : gpios_tolerated (devm_gpiod_get_array pdev) = true).
  { destruct (gpios_tolerated (devm_gpiod_get_array pdev)) eqn:E;
      [reflexivity |].
    destruct (probe_gpios_fatal pdev m Hk Hc E) as [Hr _].
    destruct (devm_gpiod_get_array pdev); simpl in *; [discriminate | lia]. }
  auto.
Qed.

(** C10: take a sequencer that probe bound with no clock (the lookup
    gave an error the probe tolerates).  After any sequence of callbacks
    and attribute reads and writes, reading the power toggle gives "off"
    and a newline.  This is so right after a write of "on" too, although
    that write ran the reset-line driver with 1 and with 0 and slept the
    post-power-on delay. *)
Theorem pwr_gpio_show_without_clk
    (pdev : platform_device) (boot : machine) (rs : list request) :
  IS_ERR (devm_clk_get pdev) = true ->
  result (mmc_pwrseq_simple_probe pdev) boot = 0 ->
  errno_in_range (devm_clk_get pdev) ->
  errno_in_range (devm_gpiod_get_array pdev) ->
  let bound := exec (mmc_pwrseq_simple_probe pdev) boot in
  let m := serve_all rs bound in
  let m' := exec (pwr_gpio_store "on" 2) m in
  result pwr_gpio_show m = (String "o" (String "f" (String "f" newline)), 4) /\
  result pwr_gpio_show m' = (String "o" (String "f" (String "f" newline)), 4) /\
  trace m' =
    trace m ++
    reset_write 1 (pwrseq m) (heap m) ++
    reset_write 0 (pwrseq m) (heap_after_write (pwrseq m) (heap m)) ++
    (if post_power_on_delay_ms (pwrseq m) =? 0 then []
     else [Msleep (post_power_on_delay_ms (pwrseq m))]).
Proof.
  intros Hclk Hret Hec Heg. simpl.
  destruct (probe_bound_inv pdev boot Hret Hec Heg) as [Hk [Hc Hg]].
  assert (Hinv : clk_never_on
                   (pwrseq (serve_all rs
                              (exec (mmc_pwrseq_simple_probe pdev) boot)))).
  { apply clk_never_on_serve_all.
    destruct (exec_of_run _ _ _ _ (probe_binds pdev boot Hk Hc Hg)) as [-> _].
    simpl. now split. }
  set (m := serve_all rs (exec (mmc_pwrseq_simple_probe pdev) boot)) in *.
  assert (Hinv' : clk_never_on (pwrseq (exec (pwr_gpio_store "on" 2) m))).
  { now apply clk_never_on_pwr_gpio_store. }
  destruct Hinv as [Hi He]. destruct Hinv' as [_ He'].
  unfold result, pwr_gpio_show. run. rewrite He, He'.
  split; [reflexivity |]. split; [reflexivity |].
  destruct (exec_of_run _ _ _ _ (pwr_gpio_store_on "on" 2 m eq_refl))
    as [-> _].
  rewrite exec_post_power_on, exec_pre_power_on.
  unfold clk_on_needed, advance; simpl. rewrite Hi; simpl.
  now rewrite <- app_assoc.
Qed.

Lemma pwr_gpio_show_without_clk_witness :
  result pwr_gpio_show
    (exec (pwr_gpio_store "on" 2)
       (serve_all [Pre_power_on; Post_power_on]
          (exec (mmc_pwrseq_simple_probe pdev_without_clk) (power_up [] 0))))
  = (String "o" (String "f" (String "f" newline)), 4).
Proof.
  apply (pwr_gpio_show_without_clk pdev_without_clk (power_up [] 0)
           [Pre_power_on; Post_power_on]).
  - reflexivity.
  - reflexivity.
  - simpl. unfold MAX_ERRNO, ENOENT. lia.
  - exact I.
Defined.

(* ================================================================= *)
(** ** Decimal text *)

(** The text [fmt_d] prints is read back by [parse_integer], by
    [kstrtol] and by the "%ld" conversion. *)

Local Open Scope string_scope.

Lemma parse_integer_step (c : ascii) (r : string) (acc : Z) (n : nat) :
  isdigit c = true ->
  parse_integer (String c r) acc n =
  parse_integer r (10 * acc + digit_val c) (S n).
Proof. simpl. now intros ->. Qed.

Lemma parse_integer_stop (s : string) (acc : Z) (n : nat) :
  no_digit_ahead s -> parse_integer s acc n = (acc, n, s).
Proof.
  destruct s as [| c r]; simpl; [reflexivity |]. now intros ->.
Qed.

Lemma parse_integer_uint (d : uint) :
  forall (rest : string) (acc : N) (n : nat),
  no_digit_ahead rest ->
  parse_integer (NilEmpty.string_of_uint d ++ rest) (Z.of_N acc) n =
  (Z.of_N (DecimalPos.Unsigned.of_lu (rev d) + acc * 10 ^ DecimalPos.Unsigned.usize d),
   (n + N.to_nat (DecimalPos.Unsigned.usize d))%nat, rest).
Proof.
  induction d; intros rest acc n Hrest;
    (* the empty numeral *)
    try (simpl; rewrite parse_integer_stop by assumption;
         rewrite N.mul_1_r, Nat.add_0_r; reflexivity);
    (* one more digit *)
    simpl NilEmpty.string_of_uint; simpl append;
    rewrite parse_integer_step by reflexivity;
    match goal with
    | |- parse_integer _ (10 * Z.of_N acc + digit_val ?c) _ = _ =>
        replace (10 * Z.of_N acc + digit_val c)
          with (Z.of_N (N.of_nat (nat_of_ascii c) - 48 + 10 * acc))
          by (vm_compute (digit_val c); vm_compute (N.of_nat (nat_of_ascii c) - 48)%N; lia)
    end;
    rewrite IHd by assumption;
    unfold rev at 2; simpl revapp; rewrite DecimalPos.Unsigned.of_lu_revapp;
    simpl DecimalPos.Unsigned.usize; rewrite N.pow_succ_r', N2Nat.inj_succ;
    (f_equal; f_equal; [f_equal | lia]);
    match goal with
    | |- context [(N.of_nat (nat_of_ascii ?c) - 48)%N] =>
        let k := eval vm_compute in (N.of_nat (nat_of_ascii c) - 48)%N in
        change (N.of_nat (nat_of_ascii c) - 48)%N with k
    end;
    simpl DecimalPos.Unsigned.of_lu; ring.
Qed.

Lemma isdigit_not_special (c : ascii) :
  isdigit c = true ->
  Ascii.eqb c "-" = false /\ Ascii.eqb c "+" = false /\
  Ascii.eqb c NUL = false /\ Ascii.eqb c NL = false /\ isspace c = false.
Proof.
  intros H.
  repeat split;
    try (match goal with
         | |- Ascii.eqb c ?k = false =>
             destruct (Ascii.eqb_spec c k) as [-> |];
             [vm_compute in H; discriminate H | reflexivity]
         end).
  unfold isdigit in H. unfold isspace.
  apply andb_true_iff in H. destruct H as [H1 H2].
  apply Nat.leb_le in H1. apply Nat.leb_le in H2.
  apply orb_false_iff; split; [apply orb_false_iff; split |].
  - apply andb_false_iff. right. apply Nat.leb_gt. lia.
  - apply Nat.eqb_neq. lia.
  - apply Nat.eqb_neq. lia.
Qed.

Lemma uint_head_digit (d : uint) :
  d <> Nil ->
  exists c r, NilEmpty.string_of_uint d = String c r /\ isdigit c = true.
Proof.
  destruct d; intros H; try (now destruct H);
    simpl; eexists; eexists; split; reflexivity.
Qed.

Lemma usize_pos (d : uint) :
  d <> Nil -> exists k, N.to_nat (DecimalPos.Unsigned.usize d) = S k.
Proof.
  destruct d; intros H; try (now destruct H); simpl;
    rewrite N2Nat.inj_succ; eexists; reflexivity.
Qed.

Lemma fmt_d_pos (p : positive) : fmt_d (Zpos p) = digits_of p.
Proof.
  unfold fmt_d, digits_of; simpl. unfold NilZero.string_of_uint.
  pose proof (DecimalPos.Unsigned.to_uint_nonnil p) as H.
  destruct (Pos.to_uint p); [now destruct H | reflexivity ..].
Qed.

Lemma fmt_d_neg (p : positive) : fmt_d (Zneg p) = String "-" (digits_of p).
Proof.
  unfold fmt_d, digits_of; simpl. unfold NilZero.string_of_uint.
  pose proof (DecimalPos.Unsigned.to_uint_nonnil p) as H.
  destruct (Pos.to_uint p); [now destruct H | reflexivity ..].
Qed.

Lemma digits_of_head (p : positive) :
  exists c r, digits_of p = String c r /\ isdigit c = true.
Proof.
  apply uint_head_digit, DecimalPos.Unsigned.to_uint_nonnil.
Qed.

Lemma parse_integer_digits_of (p : positive) (rest : string) :
  no_digit_ahead rest ->
  exists k, parse_integer (digits_of p ++ rest) 0 0 = (Zpos p, S k, rest).
Proof.
  intros Hrest. unfold digits_of.
  destruct (usize_pos (Pos.to_uint p) (DecimalPos.Unsigned.to_uint_nonnil p))
    as [k Hk].
  exists k.
  change 0 with (Z.of_N 0).
  rewrite parse_integer_uint by assumption.
  rewrite Hk, N.mul_0_l, N.add_0_r.
  rewrite <- DecimalPos.Unsigned.of_uint_alt, DecimalPos.Unsigned.of_to.
  reflexivity.
Qed.

Lemma line_end_no_digit (tail : string) : line_end tail -> no_digit_ahead tail.
Proof. intros [-> | ->]; simpl; auto. Qed.

Lemma _kstrtoull_digits_of (p : positive) (tail : string) :
  line_end tail ->
  Zpos p <= ULLONG_MAX ->
  _kstrtoull (digits_of p ++ tail) = inl (Zpos p).
Proof.
  intros Htail Hmax. unfold _kstrtoull.
  destruct (parse_integer_digits_of p tail (line_end_no_digit _ Htail))
    as [k ->].
  destruct (Z.ltb_spec ULLONG_MAX (Zpos p)) as [Hlt | _]; [lia |].
  simpl. destruct Htail as [-> | ->]; reflexivity.
Qed.

(** [kstrtol] reads back what "%d" prints, with or without a final
    newline, for every value of a [long]. *)
Lemma kstrtol_fmt_d (v : Z) (tail : string) :
  line_end tail ->
  LONG_MIN <= v <= LONG_MAX ->
  kstrtol (fmt_d v ++ tail) = inl v.
Proof.
  intros Htail Hv. unfold LONG_MIN, LONG_MAX in Hv.
  destruct v as [| p | p].
  - destruct Htail as [-> | ->]; reflexivity.
  - rewrite fmt_d_pos.
    destruct (digits_of_head p) as [c [r [Hs Hc]]].
    destruct (isdigit_not_special c Hc) as [Hm [Hp _]].
    unfold kstrtol. rewrite Hs at 1. simpl append. cbv iota.
    rewrite Hm, Hp.
    rewrite _kstrtoull_digits_of by (auto; unfold ULLONG_MAX; lia).
    destruct (Z.ltb_spec LONG_MAX (Zpos p)) as [Hlt | _];
      [unfold LONG_MAX in Hlt; lia | reflexivity].
  - rewrite fmt_d_neg. unfold kstrtol. simpl append. cbv iota.
    change (Ascii.eqb "-" "-") with true. cbv iota.
    rewrite _kstrtoull_digits_of by (auto; unfold ULLONG_MAX; lia).
    destruct (Z.ltb_spec (2 ^ 63) (Zpos p)) as [Hlt | _]; [lia | reflexivity].
Qed.

Lemma to_long_small (z : Z) : LONG_MIN <= z <= LONG_MAX -> to_long z = z.
Proof.
  unfold to_long, LONG_MIN, LONG_MAX; intros H.
  rewrite Z.mod_small; lia.
Qed.

Lemma skip_spaces_head (c : ascii) (r : string) :
  isspace c = false -> skip_spaces (String c r) = String c r.
Proof. simpl. now intros ->. Qed.

(** One "%ld" conversion reads back what "%d" prints, whatever follows
    that is not a digit. *)
Lemma scan_ld_fmt_d (v : Z) (rest : string) :
  no_digit_ahead rest ->
  LONG_MIN <= v <= LONG_MAX ->
  scan_ld (fmt_d v ++ rest) = Some (v, rest).
Proof.
  intros Hrest Hv. pose proof Hv as Hv'. unfold LONG_MIN, LONG_MAX in Hv'.
  destruct v as [| p | p].
  - unfold scan_ld. change (fmt_d 0 ++ rest) with (String "0" rest).
    rewrite skip_spaces_head by reflexivity. cbv iota.
    change (Ascii.eqb "0" "-") with false. cbv iota.
    change (isdigit "0") with true. cbv iota.
    rewrite parse_integer_step by reflexivity.
    rewrite parse_integer_stop by assumption. reflexivity.
  - rewrite fmt_d_pos.
    destruct (digits_of_head p) as [c [r [Hs Hc]]].
    destruct (isdigit_not_special c Hc) as [Hm [_ [_ [_ Hsp]]]].
    destruct (parse_integer_digits_of p rest Hrest) as [k Hk].
    unfold scan_ld. rewrite Hs in *. simpl append in *.
    rewrite skip_spaces_head by assumption. cbv iota.
    rewrite Hm. cbv iota. rewrite Hc, Hk.
    rewrite Z.mod_small by lia. now rewrite to_long_small.
  - rewrite fmt_d_neg.
    destruct (digits_of_head p) as [c [r [Hs Hc]]].
    destruct (parse_integer_digits_of p rest Hrest) as [k Hk].
    unfold scan_ld. simpl append.
    rewrite skip_spaces_head by reflexivity. cbv iota.
    change (Ascii.eqb "-" "-") with true. cbv iota.
    rewrite Hs in *. simpl append in *. cbv iota. rewrite Hc, Hk.
    rewrite Z.mod_small by lia. now rewrite to_long_small.
Qed.

Lemma fmt_d_head (v : Z) :
  exists c r, fmt_d v = String c r /\ isspace c = false.
Proof.
  destruct v as [| p | p].
  - exists "0"%char, EmptyString. split; reflexivity.
  - rewrite fmt_d_pos. destruct (digits_of_head p) as [c [r [Hs Hc]]].
    exists c, r. split; [assumption |]. now apply isdigit_not_special.
  - rewrite fmt_d_neg. exists "-"%char, (digits_of p). split; reflexivity.
Qed.

Lemma sscanf_two_numbers (a b : Z) (tail : string) :
  line_end tail ->
  LONG_MIN <= a <= LONG_MAX ->
  LONG_MIN <= b <= LONG_MAX ->
  sscanf_ld_ld (two_numbers a b tail) = [a; b].
Proof.
  intros Htail Ha Hb. unfold sscanf_ld_ld, two_numbers.
  rewrite (scan_ld_fmt_d a) by (simpl; auto).
  destruct (fmt_d_head a) as [ca [ra [Hsa _]]].
  destruct (fmt_d_head b) as [cb [rb [Hsb Hspb]]].
  rewrite Hsa at 1. simpl append at 1. cbv iota.
  change (skip_spaces (String " " (fmt_d b ++ tail)))
    with (skip_spaces (fmt_d b ++ tail)).
  assert (Hskip : skip_spaces (fmt_d b ++ tail) = fmt_d b ++ tail).
  { rewrite Hsb. simpl append. now apply skip_spaces_head. }
  rewrite Hskip.
  rewrite (scan_ld_fmt_d b) by (auto using line_end_no_digit).
  rewrite Hsb. reflexivity.
Qed.

Lemma kstrtol_two_numbers (a b : Z) (tail : string) :
  LONG_MIN <= a <= LONG_MAX ->
  kstrtol (two_numbers a b tail) = inr (- EINVAL).
Proof.
  intros Ha. unfold LONG_MIN, LONG_MAX in Ha. unfold two_numbers.
  set (rest := String " " (fmt_d b ++ tail)).
  assert (Hrest : no_digit_ahead rest) by reflexivity.
  assert (Hull : forall p, Zpos p <= 2 ^ 63 ->
                 _kstrtoull (digits_of p ++ rest) = inr (- EINVAL)).
  { intros p Hp. unfold _kstrtoull.
    destruct (parse_integer_digits_of p rest Hrest) as [k ->].
    destruct (Z.ltb_spec ULLONG_MAX (Zpos p)) as [Hlt | _];
      [unfold ULLONG_MAX in Hlt; lia | reflexivity]. }
  destruct a as [| p | p].
  - reflexivity.
  - rewrite fmt_d_pos.
    destruct (digits_of_head p) as [c [r [Hs Hc]]].
    destruct (isdigit_not_special c Hc) as [Hm [Hp _]].
    unfold kstrtol. rewrite Hs at 1. simpl append. cbv iota.
    rewrite Hm, Hp. rewrite Hull by lia. reflexivity.
  - rewrite fmt_d_neg. unfold kstrtol. simpl append. cbv iota.
    change (Ascii.eqb "-" "-") with true. cbv iota.
    rewrite Hull by lia. reflexivity.
Qed.

Lemma c_str_nul_free (s : string) : nul_free s = true -> c_str s = s.
Proof.
  induction s as [| c r IH]; simpl; [reflexivity |].
  intros H. apply andb_true_iff in H. destruct H as [Hc Hr].
  apply negb_true_iff in Hc. rewrite Hc. now rewrite IH.
Qed.

Lemma nul_free_app (s t : string) :
  nul_free (s ++ t) = nul_free s && nul_free t.
Proof.
  induction s as [| c r IH]; simpl; [reflexivity |].
  now rewrite IH, andb_assoc.
Qed.

Lemma nul_free_uint (d : uint) : nul_free (NilEmpty.string_of_uint d) = true.
Proof. induction d; simpl; auto. Qed.

Lemma nul_free_fmt_d (v : Z) : nul_free (fmt_d v) = true.
Proof.
  destruct v as [| p | p].
  - reflexivity.
  - rewrite fmt_d_pos. apply nul_free_uint.
  - rewrite fmt_d_neg. simpl. apply nul_free_uint.
Qed.

Lemma nul_free_line_end (tail : string) : line_end tail -> nul_free tail = true.
Proof. intros [-> | ->]; reflexivity. Qed.

Lemma c_str_one_number (v : Z) (tail : string) :
  line_end tail -> c_str (fmt_d v ++ tail) = fmt_d v ++ tail.
Proof.
  intros Htail. apply c_str_nul_free.
  now rewrite nul_free_app, nul_free_fmt_d, nul_free_line_end.
Qed.

Lemma c_str_two_numbers (a b : Z) (tail : string) :
  line_end tail -> c_str (two_numbers a b tail) = two_numbers a b tail.
Proof.
  intros Htail. apply c_str_nul_free. unfold two_numbers.
  rewrite nul_free_app. simpl. rewrite nul_free_app.
  now rewrite !nul_free_fmt_d, nul_free_line_end.
Qed.

Local Close Scope string_scope.

(* ================================================================= *)
(** ** The voltage control *)

Lemma vref_uV_show_unbound (m : machine) :
  IS_ERR (vref (pwrseq m)) = true ->
  vref_uV_show m = ((String "n" (String "a" newline), 3), m).
Proof.
  unfold vref_uV_show. run. now intros ->.
Qed.

Lemma vref_uV_store_unbound (buf : string) (count : Z) (m : machine) :
  IS_ERR (vref (pwrseq m)) = true ->
  vref_uV_store buf count m = (count, m).
Proof.
  unfold vref_uV_store. run. now intros ->.
Qed.

Lemma vref_uV_store_single (buf : string) (count : Z) (m : machine) (v : Z) :
  IS_ERR (vref (pwrseq m)) = false ->
  kstrtol (c_str buf) = inl v ->
  vref_uV_store buf count m =
  (count, advance m (pwrseq m) (heap m)
            [Regulator_set_voltage (vref (pwrseq m)) (to_int v) (to_int v)]).
Proof.
  unfold vref_uV_store. run. now intros -> ->.
Qed.

Lemma vref_uV_store_pair (buf : string) (count : Z) (m : machine)
    (e a b : Z) :
  IS_ERR (vref (pwrseq m)) = false ->
  kstrtol (c_str buf) = inr e ->
  sscanf_ld_ld (c_str buf) = [a; b] ->
  vref_uV_store buf count m =
  (count, advance m (pwrseq m) (heap m)
            [Regulator_set_voltage (vref (pwrseq m)) (to_int a) (to_int b)]).
Proof.
  unfold vref_uV_store. run. now intros -> -> ->.
Qed.

Lemma vref_uV_store_ignored (buf : string) (count : Z) (m : machine) (e : Z) :
  IS_ERR (vref (pwrseq m)) = false ->
  kstrtol (c_str buf) = inr e ->
  List.length (sscanf_ld_ld (c_str buf)) <> 2%nat ->
  vref_uV_store buf count m = (count, m).
Proof.
  unfold vref_uV_store. run. intros -> -> Hlen.
  destruct (sscanf_ld_ld (c_str buf)) as [| a [| b [| c l]]];
    try reflexivity.
  now destruct Hlen.
Qed.

Lemma vref_uV_store_result (buf : string) (count : Z) (m : machine) :
  result (vref_uV_store buf count) m = count.
Proof.
  unfold result, vref_uV_store. run.
  destruct (IS_ERR (vref (pwrseq m))); [reflexivity |].
  destruct (kstrtol (c_str buf)); [reflexivity |].
  destruct (sscanf_ld_ld (c_str buf)) as [| a [| b [| c l]]]; reflexivity.
Qed.

(** C8, as stated, fails for an integer that does not fit an [int]:
    the write "4294967297" to a bound regulator sets the target to [1, 1],
    the value cut to 32 bits, and not to [4294967297, 4294967297]. *)
Lemma vref_uV_store_cuts_to_int :
  trace (exec (vref_uV_store "4294967297" 10) (idle board))
  = [Regulator_set_voltage (Handle 9%nat) 1 1] /\
  trace (exec (vref_uV_store "4294967297" 10) (idle board))
  <> [Regulator_set_voltage (Handle 9%nat) 4294967297 4294967297].
Proof.
  split; [reflexivity | vm_compute; discriminate].
Qed.

(** Text after the second number does not keep [sscanf] from
    converting two values: such a write does reach the regulator. *)
Example vref_uV_store_trailing_text :
  trace (exec (vref_uV_store "1800000 2000000mV" 17) (idle board))
  = [Regulator_set_voltage (Handle 9%nat) 1800000 2000000].
Proof. reflexivity. Qed.

Example vref_uV_store_abc :
  vref_uV_store "abc" 3 (idle board) = (3, idle board).
Proof. reflexivity. Qed.

(** C8, amended: every write to the voltage control returns [count].
    With a regulator bound, the decimal text of one integer [v] of the
    [int] range, alone or followed by a newline, makes the one call
    [regulator_set_voltage(vref, v, v)]; the texts of two such integers
    with a blank between them make the one call
    [regulator_set_voltage(vref, min, max)]; a buffer that [kstrtol]
    rejects and from which the scan of "%ld %ld" does not convert two
    values makes no regulator call.  With no regulator bound a read gives
    "na" and a newline, and neither the read nor any write makes a
    regulator call. *)
Theorem vref_uV_store_effect (buf : string) (count : Z) (m : machine) :
  let p := pwrseq m in
  let m' := exec (vref_uV_store buf count) m in
  result (vref_uV_store buf count) m = count /\
  (IS_ERR (vref p) = true ->
   m' = m /\
   result vref_uV_show m = (String "n" (String "a" newline), 3) /\
   exec vref_uV_show m = m) /\
  (IS_ERR (vref p) = false ->
   (forall v tail,
      line_end tail -> INT_MIN <= v <= INT_MAX ->
      buf = (fmt_d v ++ tail)%string ->
      m' = advance m p (heap m) [Regulator_set_voltage (vref p) v v]) /\
   (forall a b tail,
      line_end tail -> INT_MIN <= a <= INT_MAX -> INT_MIN <= b <= INT_MAX ->
      buf = two_numbers a b tail ->
      m' = advance m p (heap m) [Regulator_set_voltage (vref p) a b]) /\
   (forall e,
      kstrtol (c_str buf) = inr e ->
      List.length (sscanf_ld_ld (c_str buf)) <> 2%nat ->
      m' = m)).
Proof.
  simpl. split; [apply vref_uV_store_result |]. split.
  - intros Hv.
    destruct (exec_of_run _ _ _ _ (vref_uV_store_unbound buf count m Hv))
      as [-> _].
    destruct (exec_of_run _ _ _ _ (vref_uV_show_unbound m Hv)) as [-> ->].
    repeat split.
  - intros Hv. split; [| split].
    + intros v tail Htail Hrange ->.
      assert (Hlong : LONG_MIN <= v <= LONG_MAX)
        by (unfold INT_MIN, INT_MAX, LONG_MIN, LONG_MAX in *; lia).
      assert (Hk : kstrtol (c_str (fmt_d v ++ tail)) = inl v)
        by (rewrite c_str_one_number by assumption;
            now apply kstrtol_fmt_d).
      destruct (exec_of_run _ _ _ _ (vref_uV_store_single _ count m v Hv Hk))
        as [-> _].
      now rewrite to_int_small.
    + intros a b tail Htail Ha Hb ->.
      assert (Hla : LONG_MIN <= a <= LONG_MAX)
        by (unfold INT_MIN, INT_MAX, LONG_MIN, LONG_MAX in *; lia).
      assert (Hlb : LONG_MIN <= b <= LONG_MAX)
        by (unfold INT_MIN, INT_MAX, LONG_MIN, LONG_MAX in *; lia).
      assert (Hk : kstrtol (c_str (two_numbers a b tail)) = inr (- EINVAL))
        by (rewrite c_str_two_numbers by assumption;
            now apply kstrtol_two_numbers).
      assert (Hs : sscanf_ld_ld (c_str (two_numbers a b tail)) = [a; b])
        by (rewrite c_str_two_numbers by assumption;
            now apply sscanf_two_numbers).
      destruct (exec_of_run _ _ _ _
                  (vref_uV_store_pair _ count m _ a b Hv Hk Hs)) as [-> _].
      now rewrite !to_int_small.
    + intros e Hk Hlen.
      now destruct (exec_of_run _ _ _ _
                      (vref_uV_store_ignored buf count m e Hv Hk Hlen)).
Qed.

Lemma vref_uV_store_effect_witness :
  exec (vref_uV_store "3300000" 7) (idle board)
  = advance (idle board) board []
      [Regulator_set_voltage (Handle 9%nat) 3300000 3300000] /\
  exec (vref_uV_store "1800000 2000000" 15) (idle board)
  = advance (idle board) board []
      [Regulator_set_voltage (Handle 9%nat) 1800000 2000000] /\
  exec (vref_uV_store "abc" 3) (idle board) = idle board /\
  exec (vref_uV_store "3300000" 7) (idle (set_vref (ERR_PTR (- 19)) board))
  = idle (set_vref (ERR_PTR (- 19)) board).
Proof.
  split; [| split; [| split]].
  - destruct (vref_uV_store_effect "3300000" 7 (idle board))
      as [_ [_ Hbound]].
    destruct (Hbound eq_refl) as [Hone _].
    apply (Hone 3300000 EmptyString);
      [left; reflexivity | unfold INT_MIN, INT_MAX; lia | reflexivity].
  - destruct (vref_uV_store_effect "1800000 2000000" 15 (idle board))
      as [_ [_ Hbound]].
    destruct (Hbound eq_refl) as [_ [Htwo _]].
    apply (Htwo 1800000 2000000 EmptyString);
      [left; reflexivity | unfold INT_MIN, INT_MAX; lia
      | unfold INT_MIN, INT_MAX; lia | reflexivity].
  - destruct (vref_uV_store_effect "abc" 3 (idle board))
      as [_ [_ Hbound]].
    destruct (Hbound eq_refl) as [_ [_ Hnone]].
    apply (Hnone (- EINVAL)); [reflexivity | simpl; discriminate].
  - destruct (vref_uV_store_effect "3300000" 7
                (idle (set_vref (ERR_PTR (- 19)) board)))
      as [_ [Hunbound _]].
    apply Hunbound. reflexivity.
Defined.

(* ================================================================= *)
(** ** What every run keeps *)

Lemma uniform_reset_write (value : Z) (p : mmc_pwrseq_simple) (h : list bool) :
  Forall (fun e => uniform_write p e /\ handle_ok p e) (reset_write value p h).
Proof.
  unfold reset_write.
  destruct (reset_gpios p) as [g | e] eqn:Eg; [| constructor].
  destruct (alloc_ok h); constructor; [| constructor].
  simpl. split; [| exact I]. exists g, (negb (value =? 0)).
  do 5 (split; [reflexivity || assumption |]).
  intros Hwf. rewrite repeat_length.
  destruct (bitmap_bits_wf g Hwf) as [Hn Hb]. now split.
Qed.

Lemma uniform_write_same_group (p q : mmc_pwrseq_simple) (e : event) :
  same_resources p q ->
  uniform_write q e /\ handle_ok q e -> uniform_write p e /\ handle_ok p e.
Proof.
  intros [Hc [Hg [Hv _]]]. destruct e; simpl; auto;
    rewrite ?Hg, ?Hc, ?Hv; auto.
Qed.

Lemma calls_one (f : event -> bool) (e : event) :
  calls f [e] = if f e then 1%nat else 0%nat.
Proof. unfold calls; simpl. now destruct (f e). Qed.

Lemma run_ok_refl (p : mmc_pwrseq_simple) : run_ok p p [].
Proof.
  unfold run_ok, same_resources. repeat split; auto.
Qed.

Lemma run_ok_trans (p q r : mmc_pwrseq_simple) (evs evs' : list event) :
  run_ok p q evs -> run_ok q r evs' -> run_ok p r (evs ++ evs').
Proof.
  unfold run_ok, same_resources.
  intros [[Hc [Hg [Hv [Hd1 Hd2]]]] [Hu [Hb [Hf Hs]]]]
         [[Hc' [Hg' [Hv' [Hd1' Hd2']]]] [Hu' [Hb' [Hf' Hs']]]].
  repeat split; try congruence.
  - apply Forall_app. split; [assumption |].
    eapply Forall_impl; [| exact Hu'].
    intros e. apply uniform_write_same_group.
    unfold same_resources. auto.
  - rewrite !calls_app. lia.
  - rewrite calls_app. lia.
  - intros H1 H2. rewrite calls_app.
    rewrite Hs by assumption. rewrite Hs' by congruence. reflexivity.
Qed.

Lemma run_ok_pre_power_on (m : machine) :
  run_ok (pwrseq m) (pwrseq (exec mmc_pwrseq_simple_pre_power_on m))
    (added m (exec mmc_pwrseq_simple_pre_power_on m)).
Proof.
  rewrite exec_pre_power_on, added_advance. simpl.
  unfold run_ok, same_resources, clk_on_needed, flag.
  destruct (pwrseq m) as [en d1 d2 c g v] eqn:Ep; simpl.
  repeat split;
    try (destruct (negb (IS_ERR c) && negb en); reflexivity).
  - apply Forall_app. split.
    + destruct (IS_ERR c) eqn:Ec, en; simpl; repeat constructor; assumption.
    + rewrite <- Ep. apply uniform_reset_write.
  - rewrite !calls_app, !calls_reset_write by reflexivity.
    destruct (IS_ERR c), en; reflexivity.
  - rewrite calls_app, calls_reset_write by reflexivity.
    destruct (negb (IS_ERR c) && negb en); reflexivity.
  - intros _ _. rewrite calls_app, calls_reset_write by reflexivity.
    destruct (negb (IS_ERR c) && negb en); reflexivity.
Qed.

Lemma run_ok_post_power_on (m : machine) :
  run_ok (pwrseq m) (pwrseq (exec mmc_pwrseq_simple_post_power_on m))
    (added m (exec mmc_pwrseq_simple_post_power_on m)).
Proof.
  rewrite exec_post_power_on, added_advance. simpl.
  unfold run_ok, same_resources, flag.
  repeat split.
  - apply Forall_app. split; [apply uniform_reset_write |].
    destruct (post_power_on_delay_ms (pwrseq m) =? 0); repeat constructor.
  - rewrite !calls_app, !calls_reset_write by reflexivity.
    destruct (post_power_on_delay_ms (pwrseq m) =? 0); reflexivity.
  - rewrite calls_app, calls_reset_write by reflexivity.
    destruct (post_power_on_delay_ms (pwrseq m) =? 0); reflexivity.
  - intros H1 _. rewrite H1. simpl.
    rewrite calls_app, calls_reset_write by reflexivity. reflexivity.
Qed.

Lemma run_ok_power_off (m : machine) :
  run_ok (pwrseq m) (pwrseq (exec mmc_pwrseq_simple_power_off m))
    (added m (exec mmc_pwrseq_simple_power_off m)).
Proof.
  rewrite exec_power_off, added_advance. simpl.
  unfold run_ok, same_resources, clk_off_needed, flag.
  destruct (pwrseq m) as [en d1 d2 c g v] eqn:Ep; simpl.
  repeat split;
    try (destruct (negb (IS_ERR c) && en); reflexivity).
  - apply Forall_app. split; [rewrite <- Ep; apply uniform_reset_write |].
    apply Forall_app. split.
    + destruct (d2 =? 0); repeat constructor.
    + destruct (IS_ERR c) eqn:Ec, en; simpl; repeat constructor; assumption.
  - rewrite !calls_app, !calls_reset_write by reflexivity.
    destruct (d2 =? 0), (IS_ERR c), en; reflexivity.
  - rewrite !calls_app, calls_reset_write by reflexivity.
    destruct (d2 =? 0), (negb (IS_ERR c) && en); reflexivity.
  - intros _ H2. rewrite H2. simpl.
    rewrite !calls_app, calls_reset_write by reflexivity.
    destruct (negb (IS_ERR c) && en); reflexivity.
Qed.

Lemma to_int_range (z : Z) : INT_MIN <= to_int z <= INT_MAX.
Proof.
  unfold to_int, INT_MIN, INT_MAX.
  pose proof (Z.mod_pos_bound (z + 2 ^ 31) (2 ^ 32) ltac:(lia)). lia.
Qed.

(** A write to the voltage control adds no event, or the one call
    [regulator_set_voltage] on the bound regulator. *)
Lemma vref_uV_store_shape (buf : string) (count : Z) (m : machine) :
  exists evs,
    exec (vref_uV_store buf count) m = advance m (pwrseq m) (heap m) evs /\
    (evs = [] \/
     exists a b,
       evs = [Regulator_set_voltage (vref (pwrseq m)) (to_int a) (to_int b)] /\
       IS_ERR (vref (pwrseq m)) = false).
Proof.
  destruct (IS_ERR (vref (pwrseq m))) eqn:Hv.
  - exists []. rewrite advance_nil.
    destruct (exec_of_run _ _ _ _ (vref_uV_store_unbound buf count m Hv))
      as [-> _]. auto.
  - destruct (kstrtol (c_str buf)) as [v | e] eqn:Hk.
    + eexists. split.
      * now destruct (exec_of_run _ _ _ _
                        (vref_uV_store_single buf count m v Hv Hk)) as [-> _].
      * right. eauto.
    + destruct (sscanf_ld_ld (c_str buf)) as [| a [| b [| c l]]] eqn:Hs;
        try (exists []; rewrite advance_nil;
             destruct (exec_of_run _ _ _ _
                         (vref_uV_store_ignored buf count m e Hv Hk
                            ltac:(rewrite Hs; simpl; lia))) as [-> _];
             auto).
      eexists. split.
      * now destruct (exec_of_run _ _ _ _
                        (vref_uV_store_pair buf count m e a b Hv Hk Hs))
          as [-> _].
      * right. eauto.
Qed.

Lemma vref_uV_show_shape (m : machine) :
  exec vref_uV_show m =
  advance m (pwrseq m) (heap m)
    (if IS_ERR (vref (pwrseq m)) then []
     else [Regulator_get_voltage (vref (pwrseq m))]).
Proof.
  unfold exec, vref_uV_show. run.
  destruct (IS_ERR (vref (pwrseq m))); simpl.
  - now rewrite advance_nil.
  - reflexivity.
Qed.

Lemma run_ok_regulator_only (p : mmc_pwrseq_simple) (evs : list event) :
  Forall (fun e => is_regulator_call e = true /\ handle_ok p e) evs ->
  run_ok p p evs.
Proof.
  intros H. unfold run_ok, same_resources.
  assert (Hz : forall f,
             (forall e, is_regulator_call e = true -> f e = false) ->
             calls f evs = 0%nat).
  { intros f Hf. unfold calls. induction H as [| e l [He _] Hl IH]; simpl; auto.
    now rewrite (Hf e He). }
  repeat split; auto.
  - eapply Forall_impl; [| exact H]. intros [] [He Hh]; simpl in *;
      try discriminate; auto.
  - rewrite !Hz by (intros [] He; simpl in *; congruence). reflexivity.
  - apply Hz. intros [] He; simpl in *; congruence.
  - intros _ _. apply Hz. intros [] He; simpl in *; congruence.
Qed.

(** One request extends the trace and keeps [run_ok]. *)
Lemma serve_steps (r : request) (m : machine) :
  exists evs,
    trace (exec (serve r) m) = trace m ++ evs /\
    run_ok (pwrseq m) (pwrseq (exec (serve r) m)) evs.
Proof.
  assert (Hpre : forall m0, exists evs,
             trace (exec mmc_pwrseq_simple_pre_power_on m0) = trace m0 ++ evs /\
             run_ok (pwrseq m0)
               (pwrseq (exec mmc_pwrseq_simple_pre_power_on m0)) evs).
  { intros m0. exists (added m0 (exec mmc_pwrseq_simple_pre_power_on m0)).
    split; [| apply run_ok_pre_power_on].
    rewrite exec_pre_power_on at 1. now rewrite exec_pre_power_on, added_advance. }
  assert (Hpost : forall m0, exists evs,
             trace (exec mmc_pwrseq_simple_post_power_on m0) = trace m0 ++ evs /\
             run_ok (pwrseq m0)
               (pwrseq (exec mmc_pwrseq_simple_post_power_on m0)) evs).
  { intros m0. exists (added m0 (exec mmc_pwrseq_simple_post_power_on m0)).
    split; [| apply run_ok_post_power_on].
    rewrite exec_post_power_on at 1.
    now rewrite exec_post_power_on, added_advance. }
  assert (Hoff : forall m0, exists evs,
             trace (exec mmc_pwrseq_simple_power_off m0) = trace m0 ++ evs /\
             run_ok (pwrseq m0)
               (pwrseq (exec mmc_pwrseq_simple_power_off m0)) evs).
  { intros m0. exists (added m0 (exec mmc_pwrseq_simple_power_off m0)).
    split; [| apply run_ok_power_off].
    rewrite exec_power_off at 1. now rewrite exec_power_off, added_advance. }
  destruct r as [| | | | buf count | | buf count]; simpl.
  - apply Hpre.
  - apply Hpost.
  - apply Hoff.
  - exists []. rewrite app_nil_r. split; [reflexivity | apply run_ok_refl].
  - rewrite exec_bind. change (exec skip ?x) with x.
    destruct (says_on (c_str buf)) eqn:Hon.
    + destruct (exec_of_run _ _ _ _ (pwr_gpio_store_on buf count m Hon))
        as [-> _].
      destruct (Hpre m) as [e1 [Ht1 Hr1]].
      destruct (Hpost (exec mmc_pwrseq_simple_pre_power_on m)) as [e2 [Ht2 Hr2]].
      exists (e1 ++ e2). split.
      * now rewrite Ht2, Ht1, app_assoc.
      * eapply run_ok_trans; eassumption.
    + destruct (says_off (c_str buf)) eqn:Hoff'.
      * destruct (exec_of_run _ _ _ _ (pwr_gpio_store_off buf count m Hoff'))
          as [-> _].
        apply Hoff.
      * destruct (exec_of_run _ _ _ _
                    (pwr_gpio_store_other buf count m Hon Hoff')) as [-> _].
        exists []. rewrite app_nil_r. split; [reflexivity | apply run_ok_refl].
  - rewrite exec_bind. change (exec skip ?x) with x.
    rewrite vref_uV_show_shape. eexists. split; [reflexivity |].
    simpl. apply run_ok_regulator_only.
    destruct (IS_ERR (vref (pwrseq m))) eqn:Ev; repeat constructor.
    assumption.
  - rewrite exec_bind. change (exec skip ?x) with x.
    destruct (vref_uV_store_shape buf count m) as [evs [-> Hevs]].
    exists evs. split; [reflexivity |].
    simpl. apply run_ok_regulator_only.
    destruct Hevs as [-> | [a [b [-> Ev]]]]; repeat constructor.
    assumption.
Qed.

Lemma serve_all_steps (rs : list request) (m : machine) :
  exists evs,
    trace (serve_all rs m) = trace m ++ evs /\
    run_ok (pwrseq m) (pwrseq (serve_all rs m)) evs.
Proof.
  revert m. induction rs as [| r rs IH]; intros m; simpl.
  - exists []. rewrite app_nil_r. split; [reflexivity | apply run_ok_refl].
  - destruct (serve_steps r m) as [e1 [Ht1 Hr1]].
    destruct (IH (exec (serve r) m)) as [e2 [Ht2 Hr2]].
    exists (e1 ++ e2). split.
    + now rewrite Ht2, Ht1, app_assoc.
    + eapply run_ok_trans; eassumption.
Qed.

Lemma calls_zero_forall (f : event -> bool) (evs : list event) :
  calls f evs = 0%nat <-> Forall (fun e => f e = false) evs.
Proof.
  unfold calls. induction evs as [| e l IH]; simpl.
  - split; auto.
  - destruct (f e) eqn:E; simpl.
    + split; [discriminate |]. intros H. inversion H; congruence.
    + rewrite IH. split; [now constructor |]. intros H. now inversion H.
Qed.

(** X1: whatever callbacks and attribute reads and writes are served,
    in whatever order, the clock handle, the line group, the regulator
    handle and the two delays of the structure stay what they were: the
    flag [clk_enabled] is the only field the driver writes after probe. *)
Theorem serve_all_keeps_resources (rs : list request) (m : machine) :
  let q := pwrseq (serve_all rs m) in
  ext_clk q = ext_clk (pwrseq m) /\
  reset_gpios q = reset_gpios (pwrseq m) /\
  vref q = vref (pwrseq m) /\
  post_power_on_delay_ms q = post_power_on_delay_ms (pwrseq m) /\
  power_off_delay_us q = power_off_delay_us (pwrseq m).
Proof.
  simpl. destruct (serve_all_steps rs m) as [evs [_ [Hres _]]]. exact Hres.
Qed.

(** X2: every [gpiod_set_array_value_cansleep] call made while serving
    any sequence of requests addresses the whole bound group (its
    descriptor array, its array information, its [ndescs] as the size) and
    carries one value for all lines; the trace made before is kept as a
    prefix. *)
Theorem group_writes_uniform (rs : list request) (m : machine) :
  exists evs,
    trace (serve_all rs m) = trace m ++ evs /\
    Forall (uniform_write (pwrseq m)) evs.
Proof.
  destruct (serve_all_steps rs m) as [evs [Ht [_ [Hu _]]]].
  exists evs. split; [assumption |].
  eapply Forall_impl; [| exact Hu]. now intros e [H _].
Qed.

(** X3: while serving any sequence of requests the driver passes to
    [clk_prepare_enable] and [clk_disable_unprepare] only its own
    [ext_clk], and to [regulator_get_voltage] and [regulator_set_voltage]
    only its own [vref], and never when that pointer is an error
    pointer. *)
Theorem handles_never_error (rs : list request) (m : machine) :
  exists evs,
    trace (serve_all rs m) = trace m ++ evs /\
    Forall (handle_ok (pwrseq m)) evs.
Proof.
  destruct (serve_all_steps rs m) as [evs [Ht [_ [Hu _]]]].
  exists evs. split; [assumption |].
  eapply Forall_impl; [| exact Hu]. now intros e [_ H].
Qed.

(** X4: after a probe that binds, and then any sequence of requests,
    the trace holds as many [clk_prepare_enable] calls as
    [clk_disable_unprepare] calls when the flag is clear and exactly one
    more when it is set: the clock is never enabled twice without a
    disable between, nor disabled when not enabled.  The flag is set only
    on a sequencer that has a clock handle. *)
Theorem clk_calls_balanced
    (pdev : platform_device) (heap : list bool) (vref_now : Z)
    (rs : list request) :
  devm_kzalloc_ok pdev = true ->
  clk_tolerated (devm_clk_get pdev) = true ->
  gpios_tolerated (devm_gpiod_get_array pdev) = true ->
  let m := serve_all rs
             (exec (mmc_pwrseq_simple_probe pdev) (power_up heap vref_now)) in
  calls is_clk_enable (trace m) =
    (calls is_clk_disable (trace m) + flag (pwrseq m))%nat /\
  (clk_enabled (pwrseq m) = true -> IS_ERR (devm_clk_get pdev) = false).
Proof.
  intros Hk Hc Hg. simpl.
  destruct (exec_of_run _ _ _ _
              (probe_binds pdev (power_up heap vref_now) Hk Hc Hg))
    as [-> _].
  set (b := advance _ _ _ _).
  destruct (serve_all_steps rs b) as [evs [Ht [_ [Hu [Hb _]]]]].
  assert (Hprobe : forall f,
             (forall a, f (Device_create_file a) = false) ->
             f Mmc_pwrseq_register = false ->
             calls f (trace b) = 0%nat).
  { intros f Hf Hr. unfold b, advance, calls; simpl.
    destruct (IS_ERR (devm_regulator_get_optional pdev)); simpl;
      rewrite ?Hf, ?Hr; reflexivity. }
  rewrite Ht, !calls_app, !Hprobe by reflexivity.
  change (flag (pwrseq b)) with 0%nat in Hb.
  split; [simpl; lia |].
  intros Hen. unfold flag in Hb. rewrite Hen in Hb.
  assert (Hpos : calls is_clk_enable evs <> 0%nat) by lia.
  rewrite calls_zero_forall in Hpos.
  destruct (IS_ERR (devm_clk_get pdev)) eqn:Ec; [| reflexivity].
  exfalso. apply Hpos.
  eapply Forall_impl; [| exact Hu].
  intros e [_ Hh]. destruct e; simpl in *; try reflexivity.
  destruct Hh as [-> Hh]. unfold b in Hh; simpl in Hh. congruence.
Qed.

Lemma clk_calls_balanced_witness :
  calls is_clk_enable
    (trace (serve_all [Pre_power_on; Write_pwr_gpio "on" 2; Power_off;
                       Pre_power_on]
              (exec (mmc_pwrseq_simple_probe
                       {| devm_kzalloc_ok := true;
                          devm_clk_get := Handle 1%nat;
                          devm_gpiod_get_array := ERR_PTR (- ENOENT);
                          prop_post_power_on_delay_ms := None;
                          prop_power_off_delay_us := None;
                          devm_regulator_get_optional := ERR_PTR (- 19) |})
                 (power_up [] 0))))
  = 2%nat.
Proof.
  apply (clk_calls_balanced
           {| devm_kzalloc_ok := true;
              devm_clk_get := Handle 1%nat;
              devm_gpiod_get_array := ERR_PTR (- ENOENT);
              prop_post_power_on_delay_ms := None;
              prop_power_off_delay_us := None;
              devm_regulator_get_optional := ERR_PTR (- 19) |}
           [] 0
           [Pre_power_on; Write_pwr_gpio "on" 2; Power_off; Pre_power_on]);
    reflexivity.
Defined.

(** X5: when the device description has neither delay property, the
    delays stay zero: after a probe that binds, no callback and no
    attribute write ever calls [msleep] or [usleep_range]. *)
Theorem no_delay_properties_no_sleep
    (pdev : platform_device) (heap : list bool) (vref_now : Z)
    (rs : list request) :
  devm_kzalloc_ok pdev = true ->
  clk_tolerated (devm_clk_get pdev) = true ->
  gpios_tolerated (devm_gpiod_get_array pdev) = true ->
  prop_post_power_on_delay_ms pdev = None ->
  prop_power_off_delay_us pdev = None ->
  calls is_sleep
    (trace (serve_all rs
              (exec (mmc_pwrseq_simple_probe pdev) (power_up heap vref_now))))
  = 0%nat.
Proof.
  intros Hk Hc Hg Hp1 Hp2.
  destruct (exec_of_run _ _ _ _
              (probe_binds pdev (power_up heap vref_now) Hk Hc Hg))
    as [-> _].
  set (b := advance _ _ _ _).
  destruct (serve_all_steps rs b) as [evs [Ht [_ [_ [_ [_ Hs]]]]]].
  rewrite Ht, calls_app, Hs.
  - unfold b, advance, calls; simpl.
    destruct (IS_ERR (devm_regulator_get_optional pdev)); reflexivity.
  - unfold b; simpl. now rewrite Hp1.
  - unfold b; simpl. now rewrite Hp2.
Qed.

Lemma no_delay_properties_no_sleep_witness :
  calls is_sleep
    (trace (serve_all [Pre_power_on; Post_power_on; Power_off]
              (exec (mmc_pwrseq_simple_probe
                       {| devm_kzalloc_ok := true;
                          devm_clk_get := Handle 1%nat;
                          devm_gpiod_get_array := ERR_PTR (- ENOSYS);
                          prop_post_power_on_delay_ms := None;
                          prop_power_off_delay_us := None;
                          devm_regulator_get_optional := Handle 9%nat |})
                 (power_up [] 0))))
  = 0%nat.
Proof.
  apply (no_delay_properties_no_sleep
           {| devm_kzalloc_ok := true;
              devm_clk_get := Handle 1%nat;
              devm_gpiod_get_array := ERR_PTR (- ENOSYS);
              prop_post_power_on_delay_ms := None;
              prop_power_off_delay_us := None;
              devm_regulator_get_optional := Handle 9%nat |}
           [] 0 [Pre_power_on; Post_power_on; Power_off]);
    reflexivity.
Defined.

(** X6: one power cycle through the callback table, from a sequencer
    whose flag is clear: the clock is enabled first (when there is one),
    the reset lines are driven to 1, then to 0, then comes the
    post-power-on sleep, then the lines are driven to 1 again, then comes
    the power-off sleep, and the clock is disabled last.  The structure
    afterwards is the structure before. *)
Theorem power_cycle_effect (m : machine) :
  clk_enabled (pwrseq m) = false ->
  let p := pwrseq m in
  let h1 := heap_after_write p (heap m) in
  let h2 := heap_after_write p h1 in
  exec power_cycle m =
  advance m p (heap_after_write p h2)
    ((if IS_ERR (ext_clk p) then [] else [Clk_prepare_enable (ext_clk p)]) ++
     reset_write 1 p (heap m) ++
     reset_write 0 p h1 ++
     (if post_power_on_delay_ms p =? 0 then []
      else [Msleep (post_power_on_delay_ms p)]) ++
     reset_write 1 p h2 ++
     (if power_off_delay_us p =? 0 then []
      else [Usleep_range (power_off_delay_us p)
              (u32 (2 * power_off_delay_us p))]) ++
     (if IS_ERR (ext_clk p) then []
      else [Clk_disable_unprepare (ext_clk p)])).
Proof.
  intros Hen. simpl. unfold power_cycle. simpl.
  rewrite !exec_bind.
  rewrite exec_power_off, exec_post_power_on, exec_pre_power_on.
  rewrite !advance_advance. unfold advance, clk_on_needed, clk_off_needed.
  simpl.
  destruct (pwrseq m) as [en d1 d2 c g v] eqn:Ep; simpl in *. subst en.
  unfold reset_write, heap_after_write; simpl.
  destruct (IS_ERR c) eqn:Ec; simpl; rewrite ?Ec; simpl;
    rewrite <- ?app_assoc; simpl; rewrite <- ?app_assoc; reflexivity.
Qed.

Lemma power_cycle_effect_witness :
  exec power_cycle (idle board) =
  advance (idle board) board []
    [Clk_prepare_enable (Handle 1%nat);
     Gpiod_set_array_value_cansleep 2 [3%nat; 4%nat] 7%nat [true; true];
     Gpiod_set_array_value_cansleep 2 [3%nat; 4%nat] 7%nat [false; false];
     Msleep 5;
     Gpiod_set_array_value_cansleep 2 [3%nat; 4%nat] 7%nat [true; true];
     Usleep_range 100 200;
     Clk_disable_unprepare (Handle 1%nat)].
Proof.
  apply (power_cycle_effect (idle board)). reflexivity.
Defined.

(** X7: on a sequencer with a clock handle, a read of the power toggle
    gives "on" right after pre-power-on and "off" right after power-off,
    from whatever state these were called; the read itself changes
    nothing and calls nothing. *)
Theorem pwr_gpio_show_follows_callbacks (m : machine) :
  IS_ERR (ext_clk (pwrseq m)) = false ->
  result pwr_gpio_show (exec mmc_pwrseq_simple_pre_power_on m)
  = (String "o" (String "n" newline), 3) /\
  result pwr_gpio_show (exec mmc_pwrseq_simple_power_off m)
  = (String "o" (String "f" (String "f" newline)), 4) /\
  exec pwr_gpio_show m = m.
Proof.
  intros Hc. rewrite exec_pre_power_on, exec_power_off.
  unfold result, exec, pwr_gpio_show, clk_on_needed, clk_off_needed. run.
  rewrite Hc. simpl.
  split; [| split].
  - destruct (clk_enabled (pwrseq m)) eqn:E; simpl; rewrite ?E; reflexivity.
  - destruct (clk_enabled (pwrseq m)) eqn:E; simpl; rewrite ?E; reflexivity.
  - reflexivity.
Qed.

Lemma pwr_gpio_show_follows_callbacks_witness :
  result pwr_gpio_show (exec mmc_pwrseq_simple_pre_power_on (idle board))
  = (String "o" (String "n" newline), 3).
Proof.
  apply (pwr_gpio_show_follows_callbacks (idle board)). reflexivity.
Defined.

(** X8: with a regulator bound, a read of the voltage control makes the
    one call [regulator_get_voltage] and gives the decimal text of the
    value reported and a newline, with its length as the return value;
    writing that text back makes the one call [regulator_set_voltage] with
    that value as both bounds, for every value of an [int]. *)
Theorem vref_uV_show_store_round_trip (m : machine) :
  IS_ERR (vref (pwrseq m)) = false ->
  INT_MIN <= vref_now m <= INT_MAX ->
  let text := fst (result vref_uV_show m) in
  let len := snd (result vref_uV_show m) in
  let m' := exec vref_uV_show m in
  text = (fmt_d (vref_now m) ++ newline)%string /\
  len = Z.of_nat (String.length text) /\
  m' = advance m (pwrseq m) (heap m)
         [Regulator_get_voltage (vref (pwrseq m))] /\
  vref_uV_store text len m' =
  (len, advance m' (pwrseq m) (heap m)
          [Regulator_set_voltage (vref (pwrseq m)) (vref_now m) (vref_now m)]).
Proof.
  intros Hv Hrange. simpl.
  assert (Hshow : vref_uV_show m =
                  (sysfs_emit (fmt_d (vref_now m) ++ newline)%string,
                   advance m (pwrseq m) (heap m)
                     [Regulator_get_voltage (vref (pwrseq m))])).
  { unfold vref_uV_show. run. now rewrite Hv. }
  unfold result, exec. rewrite Hshow. simpl.
  repeat split.
  assert (Hlong : LONG_MIN <= vref_now m <= LONG_MAX)
    by (unfold INT_MIN, INT_MAX, LONG_MIN, LONG_MAX in *; lia).
  assert (Hk : kstrtol (c_str (fmt_d (vref_now m) ++ newline)%string)
               = inl (vref_now m)).
  { rewrite c_str_one_number by (right; reflexivity).
    apply kstrtol_fmt_d; [right; reflexivity | assumption]. }
  rewrite (vref_uV_store_single _ _ _ (vref_now m)); simpl; auto.
  now rewrite to_int_small.
Qed.

Lemma vref_uV_show_store_round_trip_witness :
  fst (result vref_uV_show (idle board))
  = String "3" (String "3" (String "0" (String "0" (String "0"
      (String "0" (String "0" newline)))))).
Proof.
  apply (vref_uV_show_store_round_trip (idle board));
    [reflexivity | unfold INT_MIN, INT_MAX; simpl; lia].
Defined.

(** X9: whatever bytes are written to the voltage control, the write
    returns [count], leaves the structure alone, allocates nothing, and
    adds to the trace at most one event, which is then a
    [regulator_set_voltage] on the bound regulator with both bounds in the
    range of an [int]: no input makes it touch the clock, the reset lines
    or a timer. *)
Theorem vref_uV_store_any_input (buf : string) (count : Z) (m : machine) :
  let m' := exec (vref_uV_store buf count) m in
  result (vref_uV_store buf count) m = count /\
  pwrseq m' = pwrseq m /\
  heap m' = heap m /\
  exists evs,
    trace m' = trace m ++ evs /\
    (List.length evs <= 1)%nat /\
    Forall (fun e =>
              exists a b,
                e = Regulator_set_voltage (vref (pwrseq m)) a b /\
                IS_ERR (vref (pwrseq m)) = false /\
                INT_MIN <= a <= INT_MAX /\ INT_MIN <= b <= INT_MAX) evs.
Proof.
  simpl. split; [apply vref_uV_store_result |].
  destruct (vref_uV_store_shape buf count m) as [evs [-> Hevs]]. simpl.
  split; [reflexivity |]. split; [reflexivity |].
  exists evs. split; [reflexivity |].
  destruct Hevs as [-> | [a [b [-> Hv]]]]; simpl.
  - split; [lia | constructor].
  - split; [lia |]. constructor; [| constructor].
    exists (to_int a), (to_int b). auto using to_int_range.
Qed.

Lemma power_request_step (r : request) (m : machine) :
  power_request r = true ->
  calls is_regulator_call (added m (exec (serve r) m)) = 0%nat.
Proof.
  assert (Hpre : forall m0,
             calls is_regulator_call
               (added m0 (exec mmc_pwrseq_simple_pre_power_on m0)) = 0%nat).
  { intros m0. rewrite exec_pre_power_on, added_advance.
    rewrite calls_app, calls_reset_write by reflexivity.
    destruct (clk_on_needed (pwrseq m0)); reflexivity. }
  assert (Hpost : forall m0,
             calls is_regulator_call
               (added m0 (exec mmc_pwrseq_simple_post_power_on m0)) = 0%nat).
  { intros m0. rewrite exec_post_power_on, added_advance.
    rewrite calls_app, calls_reset_write by reflexivity.
    destruct (post_power_on_delay_ms (pwrseq m0) =? 0); reflexivity. }
  assert (Hoff : forall m0,
             calls is_regulator_call
               (added m0 (exec mmc_pwrseq_simple_power_off m0)) = 0%nat).
  { intros m0. rewrite exec_power_off, added_advance.
    rewrite !calls_app, calls_reset_write by reflexivity.
    destruct (power_off_delay_us (pwrseq m0) =? 0),
      (clk_off_needed (pwrseq m0)); reflexivity. }
  destruct r as [| | | | buf count | | buf count]; simpl;
    try discriminate; intros _; auto.
  - unfold added. now rewrite skipn_all.
  - rewrite exec_bind. change (exec skip ?x) with x.
    destruct (says_on (c_str buf)) eqn:Hon.
    + destruct (exec_of_run _ _ _ _ (pwr_gpio_store_on buf count m Hon))
        as [-> _].
      rewrite exec_post_power_on, exec_pre_power_on, advance_advance,
        added_advance.
      simpl. rewrite !calls_app, !calls_reset_write by reflexivity.
      destruct (clk_on_needed (pwrseq m)); simpl;
        destruct (post_power_on_delay_ms (pwrseq m) =? 0); reflexivity.
    + destruct (says_off (c_str buf)) eqn:Hoff'.
      * destruct (exec_of_run _ _ _ _ (pwr_gpio_store_off buf count m Hoff'))
          as [-> _].
        apply Hoff.
      * destruct (exec_of_run _ _ _ _
                    (pwr_gpio_store_other buf count m Hon Hoff')) as [-> _].
        unfold added. now rewrite skipn_all.
Qed.

(** X10: the three callbacks and reads and writes of the power toggle
    never call the regulator: a sequence of such requests adds no
    [regulator_get_voltage] and no [regulator_set_voltage] to the trace.
    The reference voltage changes only through the voltage control. *)
Theorem power_path_no_regulator_call (rs : list request) (m : machine) :
  forallb power_request rs = true ->
  exists evs,
    trace (serve_all rs m) = trace m ++ evs /\
    calls is_regulator_call evs = 0%nat.
Proof.
  revert m. induction rs as [| r rs IH]; intros m Hrs; simpl in *.
  - exists []. now rewrite app_nil_r.
  - apply andb_true_iff in Hrs. destruct Hrs as [Hr Hrs].
    destruct (serve_steps r m) as [e1 [Ht1 _]].
    destruct (IH (exec (serve r) m) Hrs) as [e2 [Ht2 Hc2]].
    exists (e1 ++ e2). split.
    + now rewrite Ht2, Ht1, app_assoc.
    + rewrite calls_app, Hc2.
      pose proof (power_request_step r m Hr) as Hc1.
      unfold added in Hc1. rewrite Ht1, skipn_app, skipn_all, Nat.sub_diag in Hc1.
      simpl in Hc1. rewrite Hc1. reflexivity.
Qed.

Lemma power_path_no_regulator_call_witness :
  exists evs,
    trace (serve_all [Pre_power_on; Post_power_on; Write_pwr_gpio "0" 1]
             (idle board))
    = trace (idle board) ++ evs /\
    calls is_regulator_call evs = 0%nat.
Proof.
  apply (power_path_no_regulator_call
           [Pre_power_on; Post_power_on; Write_pwr_gpio "0" 1] (idle board)).
  reflexivity.
Defined.

Lemma remove_run (m : machine) :
  mmc_pwrseq_simple_remove m =
  (0, advance m (pwrseq m) (heap m)
        ([Mmc_pwrseq_unregister; Device_remove_file dev_attr_pwr_gpio] ++
         (if IS_ERR (vref (pwrseq m)) then []
          else [Device_remove_file dev_attr_vref_uV]))).
Proof.
  unfold mmc_pwrseq_simple_remove, advance. run.
  destruct (IS_ERR (vref (pwrseq m))); simpl; rewrite <- ?app_assoc;
    reflexivity.
Qed.

(** X11: unbind returns 0 in every state.  It unregisters the
    sequencer, removes the power-toggle file and then, exactly when the
    regulator pointer is no error pointer, the voltage file.  It makes no
    other call and leaves the structure alone: in particular it does not
    disable a clock that is still enabled, and the flag stays set. *)
Theorem remove_effect (m : machine) :
  let m' := exec mmc_pwrseq_simple_remove m in
  result mmc_pwrseq_simple_remove m = 0 /\
  pwrseq m' = pwrseq m /\
  trace m' =
    trace m ++
    [Mmc_pwrseq_unregister; Device_remove_file dev_attr_pwr_gpio] ++
    (if IS_ERR (vref (pwrseq m)) then []
     else [Device_remove_file dev_attr_vref_uV]) /\
  calls is_clk_disable (added m m') = 0%nat /\
  clk_enabled (pwrseq m') = clk_enabled (pwrseq m).
Proof.
  simpl. destruct (exec_of_run _ _ _ _ (remove_run m)) as [-> ->].
  rewrite added_advance. simpl.
  repeat split.
  destruct (IS_ERR (vref (pwrseq m))); reflexivity.
Qed.

Lemma core_calls_no_files (evs : list event) :
  calls is_core_call evs = 0%nat ->
  created_files evs = [] /\ removed_files evs = [].
Proof.
  rewrite calls_zero_forall.
  induction 1 as [| e l He Hl [IH1 IH2]]; simpl; [auto |].
  rewrite IH1, IH2. destruct e; simpl in *; try discriminate; auto.
Qed.

(** X12: bind, any sequence of requests, unbind: the attribute files
    unbind removes are the files bind created, in the same order (the
    power toggle, and the voltage control when a regulator was found), and
    nothing in between creates or removes a file. *)
Theorem remove_undoes_probe_files
    (pdev : platform_device) (heap : list bool) (vref_now : Z)
    (rs : list request) :
  devm_kzalloc_ok pdev = true ->
  clk_tolerated (devm_clk_get pdev) = true ->
  gpios_tolerated (devm_gpiod_get_array pdev) = true ->
  let m := exec mmc_pwrseq_simple_remove
             (serve_all rs
                (exec (mmc_pwrseq_simple_probe pdev)
                   (power_up heap vref_now))) in
  created_files (trace m) = removed_files (trace m) /\
  created_files (trace m) =
    dev_attr_pwr_gpio ::
    (if IS_ERR (devm_regulator_get_optional pdev) then []
     else [dev_attr_vref_uV]).
Proof.
  intros Hk Hc Hg. simpl.
  destruct (exec_of_run _ _ _ _
              (probe_binds pdev (power_up heap vref_now) Hk Hc Hg))
    as [-> _].
  set (b := advance _ _ _ _).
  destruct (serve_all_steps rs b) as [evs [Ht [[_ [_ [Hv _]]] [_ [_ [Hf _]]]]]].
  destruct (core_calls_no_files evs Hf) as [Hcr Hrm].
  destruct (exec_of_run _ _ _ _ (remove_run (serve_all rs b))) as [-> _].
  unfold advance at 1. simpl trace. rewrite Ht, Hv.
  unfold created_files, removed_files in *.
  rewrite !flat_map_app, Hcr, Hrm.
  unfold b, advance; simpl.
  destruct (IS_ERR (devm_regulator_get_optional pdev)); simpl; auto.
Qed.

Lemma remove_undoes_probe_files_witness :
  created_files
    (trace (exec mmc_pwrseq_simple_remove
              (serve_all [Pre_power_on; Post_power_on]
                 (exec (mmc_pwrseq_simple_probe pdev_without_clk)
                    (power_up [] 0)))))
  = [dev_attr_pwr_gpio].
Proof.
  apply (remove_undoes_probe_files pdev_without_clk [] 0
           [Pre_power_on; Post_power_on]); reflexivity.
Defined.

(** X13: a probe that returns anything but 0 has created no attribute
    file and registered nothing: it leaves the trace as it found it.  This
    covers the failed allocation of the structure (return [-ENOMEM]), a
    clock error other than [-ENOENT] and a line-group error other than
    [-ENOENT] and [-ENOSYS]. *)
Theorem probe_failure_leaves_nothing (pdev : platform_device) (m : machine) :
  result (mmc_pwrseq_simple_probe pdev) m <> 0 ->
  trace (exec (mmc_pwrseq_simple_probe pdev) m) = trace m /\
  (devm_kzalloc_ok pdev = false ->
   result (mmc_pwrseq_simple_probe pdev) m = - ENOMEM).
Proof.
  intros Hret.
  destruct (devm_kzalloc_ok pdev) eqn:Hk.
  - split; [| discriminate].
    destruct (clk_tolerated (devm_clk_get pdev)) eqn:Hc.
    + destruct (gpios_tolerated (devm_gpiod_get_array pdev)) eqn:Hg.
      * destruct (exec_of_run _ _ _ _ (probe_binds pdev m Hk Hc Hg))
          as [_ Hr]. contradiction.
      * now destruct (probe_gpios_fatal pdev m Hk Hc Hg).
    + now destruct (probe_clk_fatal pdev m Hk Hc).
  - destruct (exec_of_run _ _ _ _ (probe_no_memory pdev m Hk)) as [-> ->].
    auto.
Qed.

Lemma probe_failure_leaves_nothing_witness :
  trace (exec (mmc_pwrseq_simple_probe
                 {| devm_kzalloc_ok := true;
                    devm_clk_get := ERR_PTR (- 517);
                    devm_gpiod_get_array := ERR_PTR (- ENOENT);
                    prop_post_power_on_delay_ms := None;
                    prop_power_off_delay_us := None;
                    devm_regulator_get_optional := Handle 9%nat |})
           (power_up [] 0))
  = [].
Proof.
  apply (probe_failure_leaves_nothing
           {| devm_kzalloc_ok := true;
              devm_clk_get := ERR_PTR (- 517);
              devm_gpiod_get_array := ERR_PTR (- ENOENT);
              prop_post_power_on_delay_ms := None;
              prop_power_off_delay_us := None;
              devm_regulator_get_optional := Handle 9%nat |}
           (power_up [] 0)).
  vm_compute. discriminate.
Defined.

(** X14: the power toggle acts on eight texts only: "on", "1", "off",
    "0", each alone or followed by one newline.  A write whose C string is
    none of them (another case, a blank after the token, two newlines, the
    empty write) returns [count] and leaves the machine as it was. *)
Theorem pwr_gpio_store_ignores_other_texts
    (buf : string) (count : Z) (m : machine) :
  ~ In (c_str buf)
      ["on"; "on" ++ newline; "1"; "1" ++ newline;
       "off"; "off" ++ newline; "0"; "0" ++ newline]%string ->
  pwr_gpio_store buf count m = (count, m).
Proof.
  intros Hnot. apply pwr_gpio_store_other.
  - apply not_true_iff_false. intros Hon. apply says_on_spec in Hon.
    apply Hnot. simpl. intuition.
  - apply not_true_iff_false. intros Hoff. apply says_off_spec in Hoff.
    apply Hnot. simpl. intuition.
Qed.

Lemma pwr_gpio_store_ignores_other_texts_witness :
  pwr_gpio_store "ON" 2 (idle board) = (2, idle board).
Proof.
  apply (pwr_gpio_store_ignores_other_texts "ON" 2 (idle board)).
  simpl. intros H.
  repeat (destruct H as [H | H]; [discriminate H |]). exact H.
Defined.

(** X15: a failed [bitmap_alloc] skips the group write and nothing
    else.  With the allocation failing, pre-power-on still enables the
    clock and sets the flag, post-power-on still sleeps, and power-off
    still sleeps, disables the clock and clears the flag; none of them
    writes a reset line. *)
Theorem alloc_failure_skips_only_the_write (m : machine) :
  alloc_ok (heap m) = false ->
  let p := pwrseq m in
  let h := heap_after_write p (heap m) in
  exec mmc_pwrseq_simple_pre_power_on m =
    advance m (if clk_on_needed p then set_clk_enabled true p else p) h
      (if clk_on_needed p then [Clk_prepare_enable (ext_clk p)] else []) /\
  exec mmc_pwrseq_simple_post_power_on m =
    advance m p h
      (if post_power_on_delay_ms p =? 0 then []
       else [Msleep (post_power_on_delay_ms p)]) /\
  exec mmc_pwrseq_simple_power_off m =
    advance m (if clk_off_needed p then set_clk_enabled false p else p) h
      ((if power_off_delay_us p =? 0 then []
        else [Usleep_range (power_off_delay_us p)
                (u32 (2 * power_off_delay_us p))]) ++
       (if clk_off_needed p then [Clk_disable_unprepare (ext_clk p)]
        else [])).
Proof.
  intros Ha. simpl.
  rewrite exec_pre_power_on, exec_post_power_on, exec_power_off.
  assert (Hw : forall value, reset_write value (pwrseq m) (heap m) = []).
  { intros value. unfold reset_write. rewrite Ha.
    now destruct (reset_gpios (pwrseq m)). }
  rewrite !Hw. simpl. rewrite app_nil_r. auto.
Qed.

Lemma alloc_failure_skips_only_the_write_witness :
  exec mmc_pwrseq_simple_power_off
    {| pwrseq := set_clk_enabled true board; heap := [false];
       stale := Nat.odd; vref_now := 0; trace := [] |}
  = {| pwrseq := board; heap := []; stale := Nat.odd; vref_now := 0;
       trace := [Usleep_range 100 200;
                 Clk_disable_unprepare (Handle 1%nat)] |}.
Proof.
  apply (alloc_failure_skips_only_the_write
           {| pwrseq := set_clk_enabled true board; heap := [false];
              stale := Nat.odd; vref_now := 0; trace := [] |}).
  reflexivity.
Defined.

Lemma c_str_app_nul (s junk : string) :
  c_str (s ++ String NUL junk) = c_str s.
Proof.
  induction s as [| c r IH]; simpl; [reflexivity |].
  destruct (Ascii.eqb c NUL); [reflexivity | now rewrite IH].
Qed.

(** X16: both store routines read the buffer as a C string: bytes
    after the first NUL byte have no effect on what the write does, while
    the value returned is still the [count] passed in. *)
Theorem stores_ignore_bytes_after_nul
    (s junk : string) (count : Z) (m : machine) :
  pwr_gpio_store (s ++ String NUL junk) count m = pwr_gpio_store s count m /\
  vref_uV_store (s ++ String NUL junk) count m = vref_uV_store s count m /\
  result (pwr_gpio_store (s ++ String NUL junk) count) m = count.
Proof.
  unfold pwr_gpio_store, vref_uV_store. rewrite !c_str_app_nul.
  split; [reflexivity |]. split; [reflexivity |].
  fold (pwr_gpio_store s count).
  destruct (says_on (c_str s)) eqn:Hon.
  - unfold result. now rewrite (pwr_gpio_store_on s count m Hon).
  - destruct (says_off (c_str s)) eqn:Hoff.
    + unfold result. now rewrite (pwr_gpio_store_off s count m Hoff).
    + unfold result. now rewrite (pwr_gpio_store_other s count m Hon Hoff).
Qed.
